(** * A shallow embedding of scripts/plot_models.py (GTG0116/modelviewer)

    The script discovers the latest run of each forecast model, reconciles
    it with the previous status.json, renders one frame per new forecast
    hour and writes status.json once at the end.

    Modelling conventions:
    - a Python [datetime] is a [Z] count of microseconds since
      1970-01-01T00:00 (proleptic Gregorian, as Python has it); a
      [timedelta(hours=k)] is [k * US_PER_HOUR];
    - exceptions are values of a small error monad [result];
    - the outside world (the data sources behind Herbie and the renderer)
      is a record [upstream] of functions from (run time, forecast hour)
      to outcomes;
    - a Python dict with string keys is an association list, kept in
      insertion order as Python keeps it; JSON scalars are [jval]. *)

From Stdlib Require Import ZArith List String Ascii Bool Lia.
From Stdlib Require Import Sorted Permutation FinFun.
From Stdlib Require Import Reals Lra.
Import ListNotations.
Open Scope string_scope.
Open Scope Z_scope.

(* ------------------------------------------------------------------ *)
(** ** Exceptions *)

Inductive exn :=
| KeyError
| TypeError
| ValueError
| ZeroDivisionError
| External.  (** any exception raised inside Herbie, xarray or matplotlib *)

Inductive result (A : Type) :=
| Ok (a : A)
| Err (e : exn).
Arguments Ok {A} a.
Arguments Err {A} e.

Definition bind {A B} (m : result A) (k : A -> result B) : result B :=
  match m with Ok a => k a | Err e => Err e end.

Notation "x <- m ;; k" := (bind m (fun x => k))
  (at level 61, m at next level, right associativity).

(** [try: m except Exception: h] *)
Definition catch {A} (m : result A) (h : exn -> result A) : result A :=
  match m with Ok a => Ok a | Err e => h e end.

Fixpoint mapM {A B} (f : A -> result B) (l : list A) : result (list B) :=
  match l with
  | [] => Ok []
  | x :: t => y <- f x ;; ys <- mapM f t ;; Ok (y :: ys)
  end.

(* ------------------------------------------------------------------ *)
(** ** JSON scalars and dicts *)

Inductive jval :=
| JInt (z : Z)
| JStr (s : string)
| JNull.

(** A dict with string keys, in insertion order. *)
Definition dict := list (string * jval).

Fixpoint dict_get (k : string) (d : dict) : option jval :=
  match d with
  | [] => None
  | (k', v) :: t => if String.eqb k k' then Some v else dict_get k t
  end.

(** [d[k] = v]: overwrite in place when the key exists, append otherwise. *)
Fixpoint dict_set (k : string) (v : jval) (d : dict) : dict :=
  match d with
  | [] => [(k, v)]
  | (k', v') :: t => if String.eqb k k' then (k', v) :: t
                     else (k', v') :: dict_set k v t
  end.

(** Python's [n == v] for an int [n] and a JSON scalar [v]. *)
Definition jeq_int (n : Z) (v : jval) : bool :=
  match v with JInt z => Z.eqb n z | _ => false end.

(* ------------------------------------------------------------------ *)
(** ** datetime *)

Definition US_PER_MINUTE : Z := 60 * 1000000.
Definition US_PER_HOUR : Z := 60 * US_PER_MINUTE.
Definition US_PER_DAY : Z := 24 * US_PER_HOUR.

Definition dt_hour (t : Z) : Z := (t / US_PER_HOUR) mod 24.
Definition dt_minute (t : Z) : Z := (t / US_PER_MINUTE) mod 60.
Definition dt_day_start (t : Z) : Z := (t / US_PER_DAY) * US_PER_DAY.

(** [t.replace(minute=0, second=0, microsecond=0)] *)
Definition dt_trunc_hour (t : Z) : Z := (t / US_PER_HOUR) * US_PER_HOUR.

(** Days since 1970-01-01 to (year, month, day), the civil calendar. *)
Definition civil_from_days (z : Z) : Z * Z * Z :=
  let z := z + 719468 in
  let era := z / 146097 in
  let doe := z - era * 146097 in
  let yoe := (doe - doe / 1460 + doe / 36524 - doe / 146096) / 365 in
  let y := yoe + era * 400 in
  let doy := doe - (365 * yoe + yoe / 4 - yoe / 100) in
  let mp := (5 * doy + 2) / 153 in
  let d := doy - (153 * mp + 2) / 5 + 1 in
  let m := if mp <? 10 then mp + 3 else mp - 9 in
  (if m <=? 2 then y + 1 else y, m, d).

(* ------------------------------------------------------------------ *)
(** ** Decimal formatting *)

Definition digit_char (d : Z) : ascii :=
  ascii_of_nat (48 + Z.to_nat d).

Fixpoint digits_aux (fuel : nat) (n : Z) (acc : string) : string :=
  match fuel with
  | O => acc
  | S f =>
      let acc' := String (digit_char (n mod 10)) acc in
      if n <? 10 then acc' else digits_aux f (n / 10) acc'
  end.

(** [str(n)] for [n >= 0]. *)
Definition digits (n : Z) : string :=
  digits_aux (S (Z.to_nat (Z.log2 n))) n EmptyString.

Fixpoint zeros (k : nat) : string :=
  match k with O => EmptyString | S k' => String "0" (zeros k') end.

(** [f"{n:0wd}"]: zero padded to width [w]; the sign counts in the width. *)
Definition pad (w : nat) (n : Z) : string :=
  if n <? 0 then
    let s := digits (- n) in "-" ++ zeros (w - 1 - String.length s) ++ s
  else
    let s := digits n in zeros (w - String.length s) ++ s.

(** [t.strftime('%Y-%m-%d %H') + 'z'] *)
Definition fmt_run (t : Z) : string :=
  let '(y, m, d) := civil_from_days (t / US_PER_DAY) in
  pad 4 y ++ "-" ++ pad 2 m ++ "-" ++ pad 2 d ++ " " ++ pad 2 (dt_hour t) ++ "z".

(** [t.strftime('%H:%M')] *)
Definition fmt_HM (t : Z) : string :=
  pad 2 (dt_hour t) ++ ":" ++ pad 2 (dt_minute t).

(* ------------------------------------------------------------------ *)
(** ** Model catalogue *)

Record config := mk_config {
  c_model : string;
  c_product : option string;
  c_step : option Z;
  c_max_hours : option Z;
  c_cycle_hrs : option Z;
  c_priority : list string;
  c_member : option string;
  c_skip_vars : option (list string);
  c_display_name : string
}.

(** [config.get('step', 6)], [config.get('max_hours', 24)],
    [config.get('cycle_hrs', 6)], [config.get('skip_vars', [])] *)
Definition get_step (c : config) : Z := match c_step c with Some s => s | None => 6 end.
Definition get_max_hours (c : config) : Z :=
  match c_max_hours c with Some s => s | None => 24 end.
Definition get_cycle_hrs (c : config) : Z :=
  match c_cycle_hrs c with Some s => s | None => 6 end.
Definition get_skip_vars (c : config) : list string :=
  match c_skip_vars c with Some s => s | None => [] end.

Definition std (model product : string) (step maxh cyc : Z) (prio : list string)
    (member : option string) (skip : option (list string)) (dn : string) : config :=
  mk_config model (Some product) (Some step) (Some maxh) (Some cyc) prio member skip dn.

Definition MODELS : list (string * config) := [
  ("hrrr", std "hrrr" "sfc" 1 24 1 ["aws"; "nomads"] None None "HRRR");
  ("rap", std "rap" "awp130pgrb" 1 21 1 ["nomads"] None None "RAP");
  ("gfs", std "gfs" "pgrb2.0p25" 6 120 6 ["aws"; "nomads"] None None "GFS");
  ("nam", std "nam" "awip12" 6 60 6 ["nomads"] None None "NAM");
  ("nam3k", std "nam" "conusnest.hiresf" 6 60 6 ["nomads"] None None "NAM 3km");
  ("gefs", std "gefs" "atmos.5" 6 120 6 ["aws"] (Some "c00") None "GEFS");
  ("aigfs", std "aigfs" "pgrb2.0p25" 6 120 6 ["nomads"] None None "AIGFS (EAGLE)");
  ("ai_gefs", std "gefs" "atmos.25" 6 120 6 ["aws"] (Some "c00") None "AI GEFS");
  ("ecmwf", std "ifs" "oper" 6 120 12 ["ecmwf"] None (Some ["radar"; "snow"]) "ECMWF IFS");
  ("ecmwf_aifs", std "aifs" "oper" 6 120 12 ["ecmwf"] None
     (Some ["radar"; "gust"; "snow"]) "ECMWF AIFS");
  ("ecmwf_ens", std "ifs" "enfo" 6 120 12 ["ecmwf"] None (Some ["radar"; "snow"]) "ECMWF ENS");
  ("ecmwf_ai_ens", std "aifs" "enfo" 6 120 12 ["ecmwf"] None
     (Some ["radar"; "gust"; "snow"]) "ECMWF AI ENS")
].

(* ------------------------------------------------------------------ *)
(** ** The outside world *)

(** What [H.xarray(search)] gives back: an exception, [None], a single
    dataset with the listed data variables ([len(ds)] is their number), or
    a list of datasets (several GRIB messages that cfgrib could not put in
    one dataset), each given by its data variables ([len(ds)] is then the
    length of the list, and the list has no [data_vars]). *)
Inductive dataset :=
| DsRaise
| DsNone
| DsVars (names : list string)
| DsList (parts : list (list string)).

Record upstream := mk_upstream {
  (** [H.grib is not None] for [Herbie(run_dt, fxx=fxx, ...)]; a
      constructor that raises counts as [false], as in [probe_available] *)
  available : Z -> Z -> bool;
  (** [make_herbie(config, run_dt, fxx)] returns without raising *)
  herbie_ok : Z -> Z -> bool;
  (** [H.xarray(search)] for the Herbie handle of (run_dt, fxx) *)
  xarray : Z -> Z -> string -> dataset;
  (** [xr.merge(ds_mix, compat='override')] returns for the datasets that the
      combined wind and temperature search fetched at (run_dt, fxx) *)
  merge_ok : Z -> Z -> bool;
  (** the steps between the fetch and [create_plot] that run outside
      [create_plot]'s own [try] return without raising, at (run_dt, fxx) for
      the key [var_key] of loop B ([list(ds.data_vars)[0]], [ds[var_name]],
      the unit conversion, [ds.longitude] and [ds.latitude]), or for the key
      ["wind"] of block A ([ws_mph], [t_f], [calculate_apparent_temp], the
      coordinates) *)
  prep_ok : Z -> Z -> string -> bool;
  (** [create_plot] reaches its [return] for (run_dt, fxx, var_key) *)
  render_ok : Z -> Z -> string -> bool
}.

(* ------------------------------------------------------------------ *)
(** ** get_run_time and the discovery loop *)

(** [get_run_time(config)] at wall-clock time [now]. *)
Definition get_run_time (cfg : config) (now : Z) : result Z :=
  let cycle_hrs := get_cycle_hrs cfg in
  if Z.eqb cycle_hrs 1 then Ok (dt_trunc_hour now - US_PER_HOUR)
  else if Z.eqb cycle_hrs 0 then Err ZeroDivisionError
  else
    let hour := (dt_hour now / cycle_hrs) * cycle_hrs in
    if (0 <=? hour) && (hour <? 24) then Ok (dt_day_start now + hour * US_PER_HOUR)
    else Err ValueError.

(** [probe_available(config, run_dt, fxx)] *)
Definition probe_available (u : upstream) (run_dt fxx : Z) : bool :=
  available u run_dt fxx.

(** Step 1 of [process_model]: [for offset in range(4)], first hit wins. *)
Definition discover (u : upstream) (cfg : config) (base_time : Z) : option Z :=
  let cycle_hrs := get_cycle_hrs cfg in
  let stride := if Z.eqb cycle_hrs 1 then 1 else cycle_hrs in
  find (fun run_dt => probe_available u run_dt 0)
    (map (fun offset => base_time - (offset * stride) * US_PER_HOUR) [0; 1; 2; 3]).

(* ------------------------------------------------------------------ *)
(** ** Variable recipes and process_frame *)

Record recipe := mk_recipe {
  r_name : string;
  r_search : string;
  r_unit : string;
  r_accum : bool
}.

(** [VARIABLES], in insertion order (colour maps and ranges only reach
    the renderer and are left out). *)
Definition VARIABLES : list (string * recipe) := [
  ("temp", mk_recipe "Temperature (2m)" ":TMP:2 m" "F" false);
  ("gust", mk_recipe "Wind Gusts (sfc)" ":GUST:surface" "mph" false);
  ("radar", mk_recipe "Simulated Radar" ":REFC:" "dBZ" false);
  ("precip", mk_recipe "1-hr Total Precip" ":APCP:" "in" true);
  ("snow", mk_recipe "1-hr Snowfall" ":(ASNOW|WEASD):" "in" true)
].

Definition MIX_SEARCH : string := ":(TMP:2 m|UGRD:10 m|VGRD:10 m):".

(** Python's [c in s] for a one-character string [c]. *)
Definition has_char (c : ascii) (s : string) : bool :=
  existsb (fun c' => Ascii.eqb c c') (list_ascii_of_string s).

Definition str_in (x : string) (l : list string) : bool :=
  existsb (String.eqb x) l.

(** Python truthiness of a [next(..., None)] result that is a non-empty
    variable name. *)
Definition isSome {A} (o : option A) : bool :=
  match o with Some _ => true | None => false end.

Definition jopt (p : option string) : jval :=
  match p with Some s => JStr s | None => JNull end.

(** [create_plot(model_key, var_key, ...)]: the relative path of the
    saved PNG, or [None] when anything in its [try] block raised. *)
Definition create_plot (u : upstream) (model_key var_key : string) (run_dt fxx : Z)
    : option string :=
  if render_ok u run_dt fxx var_key then
    Some ("images/" ++ model_key ++ "_" ++ var_key ++ "_f" ++ pad 2 fxx ++ ".png")
  else None.

(** [make_herbie(config, run_dt, fxx)] *)
Definition make_herbie (u : upstream) (run_dt fxx : Z) : result unit :=
  if herbie_ok u run_dt fxx then Ok tt else Err External.

(** The first lines of block A: [H.xarray] of the combined search, wrapped
    in a list unless it is one, then [xr.merge]; the data variables of the
    merged dataset, or the exception. *)
Definition merge_mix (u : upstream) (run_dt fxx : Z) : result (list string) :=
  match xarray u run_dt fxx MIX_SEARCH with
  | DsRaise => Err External
  | DsNone => Err External   (* [xr.merge([None])] raises *)
  | DsVars names => if merge_ok u run_dt fxx then Ok names else Err External
  | DsList parts => if merge_ok u run_dt fxx then Ok (List.concat parts) else Err External
  end.

(** Block A of [process_frame]: combined wind and apparent temperature. *)
Definition frame_wind (u : upstream) (model_key : string) (skip_vars : list string)
    (run_dt fxx : Z) (fd : dict) : result dict :=
  if str_in "wind" skip_vars then Ok fd
  else
    catch
      (names <- merge_mix u run_dt fxx ;;
       let t_var := find (has_char "t") names in
       let u_var := find (has_char "u") names in
       let v_var := find (has_char "v") names in
       match t_var, u_var, v_var with
       | Some _, Some _, Some _ =>
           if prep_ok u run_dt fxx "wind" then
             let p1 := create_plot u model_key "wind" run_dt fxx in
             let fd := dict_set "wind" (jopt p1) fd in
             let p2 := create_plot u model_key "feelslike" run_dt fxx in
             Ok (dict_set "feelslike" (jopt p2) fd)
           else Err External
       | _, _, _ => Ok fd
       end)
      (fun _ => Ok fd).

(** One iteration of loop B of [process_frame]. *)
Definition frame_var (u : upstream) (model_key : string) (skip_vars : list string)
    (run_dt fxx : Z) (fd : dict) (vr : string * recipe) : result dict :=
  let '(var_key, rcp) := vr in
  if str_in var_key skip_vars then Ok fd
  else if Z.eqb fxx 0 && r_accum rcp then Ok fd
  else
    catch
      (match xarray u run_dt fxx (r_search rcp) with
       | DsRaise => Err External
       | DsNone | DsVars [] | DsList [] => Ok fd
       | DsList (_ :: _) => Err External   (* a list has no [data_vars] *)
       | DsVars (_ :: _) =>
           if prep_ok u run_dt fxx var_key then
             let p := create_plot u model_key var_key run_dt fxx in
             Ok (dict_set var_key (jopt p) fd)
           else Err External
       end)
      (fun _ => Ok fd).

Definition frame_vars (u : upstream) (model_key : string) (skip_vars : list string)
    (run_dt fxx : Z) (fd : dict) : result dict :=
  fold_left (fun acc vr => fd <- acc ;; frame_var u model_key skip_vars run_dt fxx fd vr)
    VARIABLES (Ok fd).

(** [process_frame(model_key, config, run_dt, fxx)] *)
Definition process_frame (u : upstream) (model_key : string) (cfg : config)
    (run_dt fxx : Z) : result dict :=
  let skip_vars := get_skip_vars cfg in
  let valid_time := run_dt + fxx * US_PER_HOUR in
  let frame_data := [("fxx", JInt fxx); ("valid", JStr (fmt_HM valid_time))] in
  match make_herbie u run_dt fxx with
  | Err _ => Ok frame_data
  | Ok _ =>
      fd <- frame_wind u model_key skip_vars run_dt fxx frame_data ;;
      frame_vars u model_key skip_vars run_dt fxx fd
  end.

(* ------------------------------------------------------------------ *)
(** ** Run records and the status store *)

Record run_record := mk_rr {
  run_time : string;
  display_name : string;
  frames : list dict
}.

(** The content of status.json: model name to a record or [null]. *)
Definition status := list (string * option run_record).

Fixpoint status_get (name : string) (st : status) : option (option run_record) :=
  match st with
  | [] => None
  | (n, r) :: t => if String.eqb name n then Some r else status_get name t
  end.

Fixpoint status_set (name : string) (r : option run_record) (st : status) : status :=
  match st with
  | [] => [(name, r)]
  | (n, r') :: t => if String.eqb name n then (n, r) :: t else (n, r') :: status_set name r t
  end.

(** [existing_status.get(name) or {}], with [{}] as [None]. *)
Definition existing_of (st : status) (name : string) : option run_record :=
  match status_get name st with Some (Some r) => Some r | _ => None end.

(** [f['fxx']] *)
Definition fr_fxx (f : dict) : result jval :=
  match dict_get "fxx" f with Some v => Ok v | None => Err KeyError end.

(** [fxx in existing_frames_map], the map given by its keys. *)
Definition in_keys (keys : list jval) (fxx : Z) : bool := existsb (jeq_int fxx) keys.

(** [list(range(start, stop, step))] *)
Definition py_range (start stop step : Z) : result (list Z) :=
  if Z.eqb step 0 then Err ValueError
  else
    let n := if 0 <? step then (stop - start + step - 1) / step
             else (start - stop - step - 1) / (- step) in
    Ok (map (fun i => start + Z.of_nat i * step) (seq 0 (Z.to_nat n))).

(** The forward scan of Case B: the queued hours and the probed hours. *)
Fixpoint scan (avail : Z -> bool) (known : Z -> bool) (hs : list Z) : list Z * list Z :=
  match hs with
  | [] => ([], [])
  | fxx :: t =>
      if known fxx then scan avail known t
      else if avail fxx then
        let '(q, p) := scan avail known t in (fxx :: q, fxx :: p)
      else ([], [fxx])
  end.

(** [frames.sort(key=lambda x: x['fxx'])].  The keys are computed first
    (a frame without ["fxx"] raises [KeyError]); fewer than two frames
    are left as they are; otherwise the keys must be all ints or all
    strings, since a comparison sort on keys of mixed types (or on
    [None]) has to compare two keys Python cannot order.  The sort is
    stable: an insertion sort that puts a frame after the equal ones. *)
Fixpoint insert_by {K A} (ltb : K -> K -> bool) (x : K * A) (l : list (K * A))
    : list (K * A) :=
  match l with
  | [] => [x]
  | y :: t => if ltb (fst x) (fst y) then x :: l else y :: insert_by ltb x t
  end.

Definition sort_by {K A} (ltb : K -> K -> bool) (l : list (K * A)) : list (K * A) :=
  fold_left (fun acc x => insert_by ltb x acc) l [].

Fixpoint ints_of (ks : list jval) : option (list Z) :=
  match ks with
  | [] => Some []
  | JInt z :: t => option_map (cons z) (ints_of t)
  | _ :: _ => None
  end.

Fixpoint strs_of (ks : list jval) : option (list string) :=
  match ks with
  | [] => Some []
  | JStr s :: t => option_map (cons s) (strs_of t)
  | _ :: _ => None
  end.

Definition sort_frames (fs : list dict) : result (list dict) :=
  keys <- mapM fr_fxx fs ;;
  if Nat.ltb (List.length fs) 2 then Ok fs
  else
    match ints_of keys with
    | Some zs => Ok (map snd (sort_by Z.ltb (combine zs fs)))
    | None =>
        match strs_of keys with
        | Some ss => Ok (map snd (sort_by String.ltb (combine ss fs)))
        | None => Err TypeError
        end
    end.

(* ------------------------------------------------------------------ *)
(** ** process_model *)

(** Outcome of step 2: the early [return model_output] of Case B, or the
    output to fill, the hours to process and the keys of
    [existing_frames_map]. *)
Inductive plan_result :=
| Done (out : run_record)
| Todo (out : run_record) (to_process : list Z) (keys : list jval).

(** Step 2 of [process_model], once the run [valid_dt] is locked. *)
Definition plan (u : upstream) (name : string) (cfg : config) (existing_status : status)
    (valid_dt : Z) : result plan_result :=
  let new_run := fmt_run valid_dt in
  let existing := existing_of existing_status name in
  let existing_run := match existing with Some r => run_time r | None => "" end in
  let is_new_run := negb (String.eqb new_run existing_run) in
  all_expected_fxxs <- py_range 0 (get_max_hours cfg + 1) (get_step cfg) ;;
  if is_new_run then
    Ok (Todo (mk_rr new_run (c_display_name cfg) []) all_expected_fxxs [])
  else
    let existing_frames := match existing with Some r => frames r | None => [] end in
    keys <- mapM fr_fxx existing_frames ;;
    let model_output := mk_rr new_run (c_display_name cfg) existing_frames in
    match fst (scan (probe_available u valid_dt) (in_keys keys) all_expected_fxxs) with
    | [] => Ok (Done model_output)
    | frames_to_process => Ok (Todo model_output frames_to_process keys)
    end.

(** The in-place replacement loop: the first frame whose ["fxx"] equals
    [fxx] is replaced; without a match nothing changes. *)
Fixpoint replace_first (fxx : Z) (fd : dict) (fs : list dict) : result (list dict) :=
  match fs with
  | [] => Ok []
  | f :: t =>
      v <- fr_fxx f ;;
      if jeq_int fxx v then Ok (fd :: t)
      else t' <- replace_first fxx fd t ;; Ok (f :: t')
  end.

(** Step 3 of [process_model]: render every queued hour, merge, sort. *)
Definition gen_step (u : upstream) (name : string) (cfg : config) (valid_dt : Z)
    (keys : list jval) (acc : result (list dict)) (fxx : Z) : result (list dict) :=
  fs <- acc ;;
  frame_data <- process_frame u name cfg valid_dt fxx ;;
  if in_keys keys fxx then replace_first fxx frame_data fs
  else Ok (fs ++ [frame_data])%list.

Definition generate (u : upstream) (name : string) (cfg : config) (valid_dt : Z)
    (model_output : run_record) (frames_to_process : list Z) (keys : list jval)
    : result run_record :=
  fs <- fold_left (gen_step u name cfg valid_dt keys)
          frames_to_process (Ok (frames model_output)) ;;
  sorted <- sort_frames fs ;;
  Ok (mk_rr (run_time model_output) (display_name model_output) sorted).

(** [process_model(name, config, existing_status)] at wall-clock [now]. *)
Definition process_model (u : upstream) (name : string) (cfg : config)
    (existing_status : status) (now : Z) : result (option run_record) :=
  base_time <- get_run_time cfg now ;;
  match discover u cfg base_time with
  | None => Ok None
  | Some valid_dt =>
      p <- plan u name cfg existing_status valid_dt ;;
      match p with
      | Done out => Ok (Some out)
      | Todo out tp keys => r <- generate u name cfg valid_dt out tp keys ;; Ok (Some r)
      end
  end.

(* ------------------------------------------------------------------ *)
(** ** The entry point *)

(** The loop of [__main__]; an exception escaping [process_model] ends it. *)
Definition main_loop (u : upstream) (existing_status : status) (now : Z)
    (acc : result status) (models : list (string * config)) : result status :=
  fold_left
    (fun acc nc =>
       status_report <- acc ;;
       res <- process_model u (fst nc) (snd nc) existing_status now ;;
       Ok (status_set (fst nc) res status_report))
    models acc.

(** File-system effects on the files of the site. *)
Inductive fs_action :=
| MakeDirs (path : string)
| OpenWrite (path : string)            (** [open(path, 'w')]: truncate *)
| WriteChunk (path : string) (s : string).

Definition fs_state := list (string * string).

Fixpoint fs_get (p : string) (fs : fs_state) : option string :=
  match fs with
  | [] => None
  | (p', c) :: t => if String.eqb p p' then Some c else fs_get p t
  end.

Fixpoint fs_put (p c : string) (fs : fs_state) : fs_state :=
  match fs with
  | [] => [(p, c)]
  | (p', c') :: t => if String.eqb p p' then (p', c) :: t else (p', c') :: fs_put p c t
  end.

Definition fs_step (fs : fs_state) (a : fs_action) : fs_state :=
  match a with
  | MakeDirs _ => fs
  | OpenWrite p => fs_put p "" fs
  | WriteChunk p s =>
      let old := match fs_get p fs with Some c => c | None => "" end in
      fs_put p (old ++ s) fs
  end.

Definition fs_run (acts : list fs_action) (fs : fs_state) : fs_state :=
  fold_left fs_step acts fs.

Definition STATUS_PATH : string := "site/status.json".

(** The effects of [__main__] on site/status.json and its directory.
    [encode] stands for [json.dump]'s chunked encoder ([iterencode]).
    The PNG files written by [create_plot] under site/images during the
    loop are not part of this trace: it speaks of status.json only. *)
Definition main_trace (u : upstream) (existing_status : status) (now : Z)
    (models : list (string * config)) (encode : status -> list string)
    : list fs_action :=
  MakeDirs "site/images" ::
  match main_loop u existing_status now (Ok []) models with
  | Err _ => []
  | Ok status_report =>
      OpenWrite STATUS_PATH :: map (WriteChunk STATUS_PATH) (encode status_report)
  end.

(* ------------------------------------------------------------------ *)
(** ** The Case B schedule as the spec words it *)

Fixpoint take_while {A} (p : A -> bool) (l : list A) : list A :=
  match l with [] => [] | x :: t => if p x then x :: take_while p t else [] end.

Fixpoint drop_while {A} (p : A -> bool) (l : list A) : list A :=
  match l with [] => [] | x :: t => if p x then drop_while p t else l end.

(** Expected hours minus the recorded ones, probed in ascending order,
    kept while the probes succeed. *)
Definition case_b_schedule (avail : Z -> bool) (keys : list jval) (hs : list Z) : list Z :=
  take_while avail (filter (fun h => negb (in_keys keys h)) hs).

(** The hours probed: the schedule, then the first failing hour if any. *)
Definition case_b_probes (avail : Z -> bool) (keys : list jval) (hs : list Z) : list Z :=
  let rest := filter (fun h => negb (in_keys keys h)) hs in
  (take_while avail rest ++ firstn 1 (drop_while avail rest))%list.

(* ------------------------------------------------------------------ *)
(** ** Scenarios and properties named by the statements below *)

(** The configuration and prior state of the gap-stop scenario. *)
Definition gap_cfg : config := std "hrrr" "sfc" 1 3 1 ["aws"; "nomads"] None None "HRRR".

Definition gap_status (valid_dt : Z) : status :=
  [("hrrr", Some (mk_rr (fmt_run valid_dt) "HRRR" []))].

Definition avail_013 (h : Z) : bool := existsb (Z.eqb h) [0; 1; 3].

Definition vars_step (u : upstream) (mk : string) (skip : list string) (run_dt fxx : Z)
    (acc : result dict) (vr : string * recipe) : result dict :=
  fd <- acc ;; frame_var u mk skip run_dt fxx fd vr.

(** The claim C4 as worded: a variable whose renderer fails has no key. *)
Definition render_failure_omits_key : Prop :=
  forall (u : upstream) (mk : string) (cfg : config) (run_dt fxx : Z) (var_key : string)
         (fr : dict),
    render_ok u run_dt fxx var_key = false ->
    process_frame u mk cfg run_dt fxx = Ok fr ->
    dict_get var_key fr = None.

(** Every Herbie call succeeds with fields t2m, u10, v10; no plot renders. *)
Definition u_render_fails : upstream :=
  mk_upstream (fun _ _ => true) (fun _ _ => true)
    (fun _ _ _ => DsVars ["t2m"; "u10"; "v10"]) (fun _ _ => true) (fun _ _ _ => true)
    (fun _ _ _ => false).

Definition T_2026_10_17_12 : Z := 1792238400000000.

Definition key_le {A} (a b : Z * A) : Prop := fst a <= fst b.

(** The keys of frames paired with their own ["fxx"] value. *)
Definition keyed {K} (inj : K -> jval) (l : list (K * dict)) : Prop :=
  Forall (fun p => fr_fxx (snd p) = Ok (inj (fst p))) l.



(** Every hour of every run is upstream and renders. *)
Definition u_all_available : upstream :=
  mk_upstream (fun _ _ => true) (fun _ _ => true)
    (fun _ _ _ => DsVars ["t2m"; "u10"; "v10"]) (fun _ _ => true) (fun _ _ _ => true)
    (fun _ _ _ => true).



(** The gap-stop upstream, on which building the fetch handle always
    fails: every frame of it gets no variable at all. *)
Definition u_no_herbie : upstream :=
  mk_upstream (fun _ h => avail_013 h) (fun _ _ => false)
    (fun _ _ _ => DsRaise) (fun _ _ => true) (fun _ _ _ => true) (fun _ _ _ => false).

Module Fields.
Local Open Scope R_scope.

(** The unit conversion of loop B of [process_frame], on one value. *)
Definition convert_units (unit : string) (data : R) : R :=
  if String.eqb unit "F" then (data - 273.15) * 9 / 5 + 32
  else if String.eqb unit "mph" then data * 2.237
  else if String.eqb unit "in" then data * 0.0393701
  else data.

(** The snow branch of generate_images.py: [data = raw * 39.37]. *)
Definition legacy_snow (raw : R) : R := raw * 39.37.

Definition Rltb (x y : R) : bool := if Rlt_dec x y then true else false.

(** [np.where(mask, a, b)] on arrays of one shape. *)
Definition np_where (mask : list bool) (a b : list R) : list R :=
  map (fun p : bool * (R * R) => if fst p then fst (snd p) else snd (snd p))
    (combine mask (combine a b)).

(** [calculate_apparent_temp(T_f, V_mph)] on two arrays of one shape.
    [V_mph ** 0.16] is [Rpower]; where [V_mph <= 0] its value is not
    selected by the mask. *)
Definition calculate_apparent_temp (T_f V_mph : list R) : list R :=
  let feels_like := T_f in
  let mask := map (fun p : R * R => Rltb (fst p) 50 && Rltb 3 (snd p)) (combine T_f V_mph) in
  np_where mask
    (map (fun p : R * R => 35.74 + 0.6215 * fst p - 35.75 * Rpower (snd p) 0.16
                   + 0.4275 * fst p * Rpower (snd p) 0.16)
         (combine T_f V_mph))
    feels_like.

(** The claim C5 as worded: an accumulation variable converts 1 m of
    fetched value to 39.3701 in, within a tolerance of 1e-6. *)
Definition depth_converts_meters : Prop :=
  forall vr, In vr VARIABLES -> r_unit (snd vr) = "in" ->
  Rabs (convert_units (r_unit (snd vr)) 1 - 39.3701) < / 1000000.

End Fields.

(** The claim C9 as worded: whatever prefix of the effects of one
    invocation has run when it crashes, site/status.json holds either
    what it held before or what the full invocation writes. *)
Definition persist_atomic : Prop :=
  forall (u : upstream) (st : status) (now : Z) (models : list (string * config))
         (encode : status -> list string) (fs0 : fs_state) (k : nat),
    let tr := main_trace u st now models encode in
    fs_get STATUS_PATH (fs_run (firstn k tr) fs0) = fs_get STATUS_PATH fs0
    \/ fs_get STATUS_PATH (fs_run (firstn k tr) fs0) = fs_get STATUS_PATH (fs_run tr fs0).

Definition T_2026_10_17_11 : Z := 1792234800000000.

(** HRRR at 12:00 on [u_no_herbie] with no stored record: the 11z run,
    hours 0 to 3, each frame with its hour and valid time only. *)
Definition rr_no_herbie : run_record :=
  mk_rr "2026-10-17 11z" "HRRR"
    [[("fxx", JInt 0); ("valid", JStr "11:00")];
     [("fxx", JInt 1); ("valid", JStr "12:00")];
     [("fxx", JInt 2); ("valid", JStr "13:00")];
     [("fxx", JInt 3); ("valid", JStr "14:00")]].

Definition st_hour0 : status :=
  [("hrrr", Some (mk_rr "2026-10-17 11z" "HRRR" [[("fxx", JInt 0)]]))].


(* ------------------------------------------------------------------ *)
(** ** load_existing_status *)

(** [load_existing_status()] on the file system [fs]; [decode] stands
    for [json.load], [None] where it raises. *)
Definition load_existing_status (decode : string -> option status) (fs : fs_state) : status :=
  match fs_get STATUS_PATH fs with
  | Some c => match decode c with Some st => st | None => [] end
  | None => []
  end.

(* ------------------------------------------------------------------ *)
(** ** The legacy script generate_images.py *)

Module Legacy.

(** [t.strftime('%Y-%m-%d %H:00')] *)
Definition fmt_probe (t : Z) : string :=
  let '(y, m, d) := civil_from_days (t / US_PER_DAY) in
  pad 4 y ++ "-" ++ pad 2 m ++ "-" ++ pad 2 d ++ " " ++ pad 2 (dt_hour t) ++ ":00".

Record legacy_upstream := mk_lu {
  (** [Herbie(run_str, model=model, fxx=1, ...).inventory() is not None];
      [false] when it raises *)
  l_inventory_ok : string -> string -> bool;
  (** [Herbie(run_time, model=model, fxx=fxx, ...)] returns *)
  l_herbie_ok : string -> Z -> Z -> bool;
  (** fetching, converting, plotting and saving one variable returns *)
  l_var_ok : string -> Z -> Z -> string -> bool
}.

(** The keys of [VARIABLES], in order. *)
Definition LVARIABLES : list string := ["temp"; "wind"; "refc"; "snow"].

(** [get_latest_run_time(model_type)] at wall-clock time [now]. *)
Definition get_latest_run_time (lu : legacy_upstream) (model_type : string) (now : Z)
    : option Z :=
  find (fun t => l_inventory_ok lu model_type (fmt_probe t))
    (map (fun i => now - Z.of_nat i * US_PER_HOUR) (seq 0 12)).

(** The effects on the file system. *)
Inductive effect :=
| LMakeDirs (folder : string)
| LSave (filename : string).

Definition folder_of (model_name var_name : string) : string :=
  "frames_" ++ model_name ++ "_" ++ var_name.

Definition filename_of (model_name var_name : string) (fxx : Z) : string :=
  folder_of model_name var_name ++ "/f" ++ pad 2 fxx ++ ".png".

(** The loop over [VARIABLES] inside the [try] of one forecast hour: the
    effects done, and whether the loop ran to its end (an exception
    leaves the loop and the [try]). *)
Fixpoint legacy_vars (lu : legacy_upstream) (model_name : string) (run_time fxx : Z)
    (vars : list string) : list effect * bool :=
  match vars with
  | [] => ([], true)
  | v :: t =>
      let mk := LMakeDirs (folder_of model_name v) in
      if l_var_ok lu model_name run_time fxx v then
        let '(es, ok) := legacy_vars lu model_name run_time fxx t in
        (mk :: LSave (filename_of model_name v fxx) :: es, ok)
      else ([mk], false)
  end.

(** One iteration of [for fxx in range(1, max_fxx + 1)]. *)
Definition legacy_hour (lu : legacy_upstream) (model_name : string) (run_time fxx : Z)
    : list effect :=
  if l_herbie_ok lu model_name run_time fxx
  then fst (legacy_vars lu model_name run_time fxx LVARIABLES)
  else [].

(** [max_fxx] from the model name and the run hour. *)
Definition legacy_max_fxx (model_name : string) (run_hour : Z) : Z :=
  let is_long_run := existsb (Z.eqb run_hour) [0; 6; 12; 18] in
  if String.eqb model_name "hrrr" then (if is_long_run then 48 else 18)
  else (if is_long_run then 60 else 18).

(** [process_model(model_name)]: its effects on the file system. *)
Definition process_model (lu : legacy_upstream) (model_name : string) (now : Z)
    : list effect :=
  match get_latest_run_time lu model_name now with
  | None => []
  | Some run_time =>
      let max_fxx := legacy_max_fxx model_name (dt_hour run_time) in
      flat_map (legacy_hour lu model_name run_time)
        (map (fun i => 1 + Z.of_nat i) (seq 0 (Z.to_nat max_fxx)))
  end.

End Legacy.

(* ------------------------------------------------------------------ *)
(** ** Decimal decoding, to reason about [pad] *)

Fixpoint parse_aux (s : string) (acc : Z) : Z :=
  match s with
  | EmptyString => acc
  | String c s' => parse_aux s' (acc * 10 + (Z.of_nat (nat_of_ascii c) - 48))
  end.

Definition parse_digits (s : string) : Z := parse_aux s 0.

(** Frames reachable from [d] by [d[k] = v] for keys [k] with [P k]. *)
Inductive dsets (P : string -> Prop) (d : dict) : dict -> Prop :=
| ds_refl : dsets P d d
| ds_set (d' : dict) (k : string) (v : jval) : dsets P d d' -> P k -> dsets P d (dict_set k v d').

(** Keys a frame may get from the wind block and from loop B. *)
Definition wind_key (skip : list string) (k : string) : Prop :=
  (k = "wind" \/ k = "feelslike") /\ str_in "wind" skip = false.

Definition var_key_ok (skip : list string) (fxx : Z) (k : string) : Prop :=
  exists rcp, In (k, rcp) VARIABLES /\ str_in k skip = false
              /\ (Z.eqb fxx 0 && r_accum rcp) = false.

(* ------------------------------------------------------------------ *)
(** ** Lemmas on the scan *)

Lemma scan_take_while (avail known : Z -> bool) (hs : list Z) :
  scan avail known hs =
  (take_while avail (filter (fun h => negb (known h)) hs),
   (take_while avail (filter (fun h => negb (known h)) hs)
    ++ firstn 1 (drop_while avail (filter (fun h => negb (known h)) hs)))%list).
Proof.
  induction hs as [|h t IH]; simpl; [reflexivity|].
  destruct (known h) eqn:Hk; simpl; [exact IH|].
  destruct (avail h) eqn:Ha; simpl; [|reflexivity].
  rewrite IH. reflexivity.
Qed.

Lemma fmt_run_eqb_refl (t : Z) : String.eqb (fmt_run t) (fmt_run t) = true.
Proof. apply String.eqb_refl. Qed.

Lemma plan_case_b (u : upstream) (name : string) (cfg : config) (st : status)
    (valid_dt : Z) (rr : run_record) (keys : list jval) (hs : list Z) :
  existing_of st name = Some rr ->
  run_time rr = fmt_run valid_dt ->
  mapM fr_fxx (frames rr) = Ok keys ->
  py_range 0 (get_max_hours cfg + 1) (get_step cfg) = Ok hs ->
  plan u name cfg st valid_dt =
  Ok (match case_b_schedule (probe_available u valid_dt) keys hs with
      | [] => Done (mk_rr (fmt_run valid_dt) (c_display_name cfg) (frames rr))
      | tp => Todo (mk_rr (fmt_run valid_dt) (c_display_name cfg) (frames rr)) tp keys
      end).
Proof.
  intros Hex Hrt Hk Hr. unfold plan. rewrite Hex, Hrt, fmt_run_eqb_refl, Hr. simpl.
  rewrite Hk. simpl. rewrite scan_take_while. simpl.
  unfold case_b_schedule. destruct (take_while _ _); reflexivity.
Qed.

(** C1. Case B (the locked run is the recorded one): the hours queued are
    the expected hours without a recorded frame, probed in ascending
    order and kept up to the first failing probe; the probes stop there.
    With maxForecastHour = 3, stepHours = 1, no prior frames and the
    hours {0, 1, 3} upstream, hours 0 and 1 are queued and hour 3 is
    neither probed nor queued. *)
Theorem case_b_scan_stops_at_first_gap (u : upstream) (name : string) (cfg : config)
    (st : status) (valid_dt : Z) (rr : run_record) (keys : list jval) (hs : list Z) :
  existing_of st name = Some rr ->
  run_time rr = fmt_run valid_dt ->
  mapM fr_fxx (frames rr) = Ok keys ->
  py_range 0 (get_max_hours cfg + 1) (get_step cfg) = Ok hs ->
  (plan u name cfg st valid_dt =
   Ok (match case_b_schedule (probe_available u valid_dt) keys hs with
       | [] => Done (mk_rr (fmt_run valid_dt) (c_display_name cfg) (frames rr))
       | tp => Todo (mk_rr (fmt_run valid_dt) (c_display_name cfg) (frames rr)) tp keys
       end)
   /\ snd (scan (probe_available u valid_dt) (in_keys keys) hs)
      = case_b_probes (probe_available u valid_dt) keys hs)
  /\ (forall (u' : upstream) (t : Z),
        (forall h, available u' t h = avail_013 h) ->
        plan u' "hrrr" gap_cfg (gap_status t) t
        = Ok (Todo (mk_rr (fmt_run t) "HRRR" []) [0; 1] [])
        /\ snd (scan (probe_available u' t) (in_keys []) [0; 1; 2; 3]) = [0; 1; 2]).
Proof.
  intros Hex Hrt Hk Hr. split; [split|].
  - exact (plan_case_b u name cfg st valid_dt rr keys hs Hex Hrt Hk Hr).
  - rewrite scan_take_while. reflexivity.
  - intros u' t Hav.
    assert (Hp : forall h, probe_available u' t h = avail_013 h)
      by (intro h; apply Hav).
    split.
    + rewrite (plan_case_b u' "hrrr" gap_cfg (gap_status t) t
                 (mk_rr (fmt_run t) "HRRR" []) [] [0; 1; 2; 3]).
      * unfold case_b_schedule. simpl. rewrite !Hp. reflexivity.
      * unfold existing_of, gap_status. simpl. reflexivity.
      * reflexivity.
      * reflexivity.
      * reflexivity.
    + simpl. rewrite !Hp. reflexivity.
Qed.

(* ------------------------------------------------------------------ *)
(** ** Run discovery *)

Lemma get_run_time_anchor (cfg : config) (now : Z) :
  0 < get_cycle_hrs cfg ->
  get_run_time cfg now =
  Ok (if Z.eqb (get_cycle_hrs cfg) 1 then dt_trunc_hour now - US_PER_HOUR
      else dt_day_start now + (dt_hour now / get_cycle_hrs cfg * get_cycle_hrs cfg)
                              * US_PER_HOUR).
Proof.
  intros Hc. unfold get_run_time.
  destruct (Z.eqb (get_cycle_hrs cfg) 1) eqn:H1; [reflexivity|].
  destruct (Z.eqb (get_cycle_hrs cfg) 0) eqn:H0; [apply Z.eqb_eq in H0; lia|].
  set (c := get_cycle_hrs cfg) in *.
  assert (Hh : 0 <= dt_hour now < 24) by (unfold dt_hour; apply Z.mod_pos_bound; lia).
  assert (Hle : c * (dt_hour now / c) <= dt_hour now) by (apply Z.mul_div_le; lia).
  assert (Hge : 0 <= dt_hour now / c) by (apply Z.div_pos; lia).
  replace ((0 <=? dt_hour now / c * c) && (dt_hour now / c * c <? 24)) with true
    by (symmetry; apply andb_true_intro; split; [apply Z.leb_le | apply Z.ltb_lt]; nia).
  reflexivity.
Qed.

Lemma discover_candidates (u : upstream) (cfg : config) (anchor : Z) :
  discover u cfg anchor =
  find (fun t => probe_available u t 0)
    [anchor; anchor - get_cycle_hrs cfg * US_PER_HOUR;
     anchor - 2 * get_cycle_hrs cfg * US_PER_HOUR;
     anchor - 3 * get_cycle_hrs cfg * US_PER_HOUR].
Proof.
  unfold discover.
  replace (if Z.eqb (get_cycle_hrs cfg) 1 then 1 else get_cycle_hrs cfg)
    with (get_cycle_hrs cfg)
    by (destruct (Z.eqb (get_cycle_hrs cfg) 1) eqn:E; [apply Z.eqb_eq in E|]; lia).
  cbn [map].
  replace (anchor - 0 * get_cycle_hrs cfg * US_PER_HOUR) with anchor by ring.
  replace (anchor - 1 * get_cycle_hrs cfg * US_PER_HOUR)
    with (anchor - get_cycle_hrs cfg * US_PER_HOUR) by ring.
  reflexivity.
Qed.

(** C2. Discovery: for a positive cycle length the anchor is the current
    hour minus one hour (hourly models) or the current hour rounded down
    to a multiple of the cycle; the four candidates anchor, anchor - c,
    anchor - 2c, anchor - 3c are probed at hour 0 in that order and the
    first available one is locked; when none is, the model's result is
    [None] and the main loop records it and goes on with the next model. *)
Theorem discovery_four_candidates (u : upstream) (name : string) (cfg : config)
    (st : status) (now : Z) :
  0 < get_cycle_hrs cfg ->
  let c := get_cycle_hrs cfg in
  let anchor := if Z.eqb c 1 then dt_trunc_hour now - US_PER_HOUR
                else dt_day_start now + (dt_hour now / c * c) * US_PER_HOUR in
  get_run_time cfg now = Ok anchor
  /\ discover u cfg anchor =
     find (fun t => probe_available u t 0)
       [anchor; anchor - c * US_PER_HOUR; anchor - 2 * c * US_PER_HOUR;
        anchor - 3 * c * US_PER_HOUR]
  /\ (discover u cfg anchor = None ->
      process_model u name cfg st now = Ok None
      /\ forall (acc : status) (rest : list (string * config)),
           main_loop u st now (Ok acc) ((name, cfg) :: rest)
           = main_loop u st now (Ok (status_set name None acc)) rest).
Proof.
  intros Hc c anchor.
  assert (Ha : get_run_time cfg now = Ok anchor) by exact (get_run_time_anchor cfg now Hc).
  split; [exact Ha|]. split; [apply discover_candidates|].
  intros Hn.
  assert (Hp : process_model u name cfg st now = Ok None)
    by (unfold process_model; rewrite Ha; simpl; rewrite Hn; reflexivity).
  split; [exact Hp|].
  intros acc rest. unfold main_loop. simpl. rewrite Hp. reflexivity.
Qed.

(* ------------------------------------------------------------------ *)
(** ** range *)

Lemma py_range_pos (stop step : Z) :
  0 < step ->
  py_range 0 stop step =
  Ok (map (fun i => Z.of_nat i * step) (seq 0 (Z.to_nat ((stop + step - 1) / step)))).
Proof.
  intros Hs. unfold py_range.
  destruct (Z.eqb step 0) eqn:E; [apply Z.eqb_eq in E; lia|].
  destruct (0 <? step) eqn:E'; [|apply Z.ltb_ge in E'; lia].
  replace (stop - 0 + step - 1) with (stop + step - 1) by ring. reflexivity.
Qed.

Lemma in_py_range (stop step : Z) (hs : list Z) :
  0 < step -> py_range 0 stop step = Ok hs ->
  forall x, In x hs <-> 0 <= x < stop /\ (step | x).
Proof.
  intros Hs Hr x. rewrite py_range_pos in Hr by exact Hs. injection Hr as <-.
  set (a := stop + step - 1).
  pose proof (Z.div_mod a step ltac:(lia)) as Hdm.
  pose proof (Z.mod_pos_bound a step Hs) as Hmb.
  set (q := a / step) in *. set (r := a mod step) in *.
  rewrite in_map_iff. split.
  - intros [i [<- Hi]]. apply in_seq in Hi.
    assert (Hq : Z.of_nat i < q) by lia.
    split; [split; nia|]. exists (Z.of_nat i). reflexivity.
  - intros [[H0 H1] [k ->]].
    assert (Hk : 0 <= k) by nia.
    exists (Z.to_nat k). rewrite Z2Nat.id by exact Hk. split; [reflexivity|].
    apply in_seq. split; [lia|]. nia.
Qed.

Lemma py_range_NoDup (start stop step : Z) (hs : list Z) :
  py_range start stop step = Ok hs -> NoDup hs.
Proof.
  unfold py_range. destruct (Z.eqb step 0) eqn:E; [discriminate|].
  apply Z.eqb_neq in E. intros H. injection H as <-.
  apply Injective_map_NoDup; [|apply seq_NoDup].
  intros i j Hij. apply Nat2Z.inj. nia.
Qed.

Lemma sorted_multiples (step : Z) (start n : nat) :
  0 < step -> Sorted Z.lt (map (fun i => Z.of_nat i * step) (seq start n)).
Proof.
  intros Hs. revert start. induction n as [|n IH]; intros start; cbn [seq map]; [constructor|].
  constructor; [apply IH|].
  destruct n; cbn [seq map]; constructor. rewrite Nat2Z.inj_succ. nia.
Qed.

Lemma fmt_run_nonempty (t : Z) : String.eqb (fmt_run t) "" = false.
Proof.
  unfold fmt_run. destruct (civil_from_days (t / US_PER_DAY)) as [[y m] d].
  destruct (pad 4 y); reflexivity.
Qed.

Lemma plan_case_a (u : upstream) (name : string) (cfg : config) (st : status)
    (valid_dt : Z) (hs : list Z) :
  (existing_of st name = None
   \/ exists rr, existing_of st name = Some rr /\ run_time rr <> fmt_run valid_dt) ->
  py_range 0 (get_max_hours cfg + 1) (get_step cfg) = Ok hs ->
  plan u name cfg st valid_dt = Ok (Todo (mk_rr (fmt_run valid_dt) (c_display_name cfg) []) hs []).
Proof.
  intros Hex Hr. unfold plan. rewrite Hr. simpl.
  destruct Hex as [Hn | [rr [Hs Hne]]].
  - rewrite Hn, fmt_run_nonempty. reflexivity.
  - rewrite Hs. destruct (String.eqb (fmt_run valid_dt) (run_time rr)) eqn:E.
    + apply String.eqb_eq in E. congruence.
    + reflexivity.
Qed.

(** C3. Case A (no record, or a record of another run): every recorded
    frame is dropped and the queue is the whole expected sequence, the
    multiples of stepHours from 0 to maxForecastHour in ascending order;
    no hour is probed, so the plan is the same whatever is upstream. *)
Theorem case_a_schedules_all_hours (u : upstream) (name : string) (cfg : config)
    (st : status) (valid_dt : Z) (hs : list Z) :
  (existing_of st name = None
   \/ exists rr, existing_of st name = Some rr /\ run_time rr <> fmt_run valid_dt) ->
  py_range 0 (get_max_hours cfg + 1) (get_step cfg) = Ok hs ->
  plan u name cfg st valid_dt = Ok (Todo (mk_rr (fmt_run valid_dt) (c_display_name cfg) []) hs [])
  /\ (forall u' : upstream, plan u' name cfg st valid_dt = plan u name cfg st valid_dt)
  /\ (0 < get_step cfg ->
      Sorted Z.lt hs
      /\ forall x, In x hs <-> 0 <= x <= get_max_hours cfg /\ (get_step cfg | x)).
Proof.
  intros Hex Hr.
  assert (Hplan : forall u', plan u' name cfg st valid_dt
                  = Ok (Todo (mk_rr (fmt_run valid_dt) (c_display_name cfg) []) hs []))
    by (intros u'; apply plan_case_a; assumption).
  split; [apply Hplan|]. split; [intros u'; rewrite !Hplan; reflexivity|].
  intros Hs. split.
  - rewrite py_range_pos in Hr by exact Hs. injection Hr as <-. apply sorted_multiples, Hs.
  - intros x. rewrite (in_py_range _ _ hs Hs Hr x).
    split; intros [H1 H2]; (split; [lia | exact H2]).
Qed.

(* ------------------------------------------------------------------ *)
(** ** process_frame *)

Lemma dict_get_set (k k' : string) (v : jval) (d : dict) :
  dict_get k (dict_set k' v d) = if String.eqb k k' then Some v else dict_get k d.
Proof.
  induction d as [|[k'' v''] t IH]; simpl.
  - reflexivity.
  - destruct (String.eqb_spec k' k'') as [<-|Hne]; simpl.
    + destruct (String.eqb k k'); reflexivity.
    + rewrite IH. destruct (String.eqb_spec k k'') as [->|Hk]; [|reflexivity].
      destruct (String.eqb_spec k'' k') as [->|_]; [congruence|reflexivity].
Qed.

Lemma dict_get_set_other (k k' : string) (v : jval) (d : dict) :
  k <> k' -> dict_get k (dict_set k' v d) = dict_get k d.
Proof.
  intros Hne. rewrite dict_get_set. destruct (String.eqb_spec k k'); congruence.
Qed.

Lemma dict_get_set_same (k : string) (v : jval) (d : dict) :
  dict_get k (dict_set k v d) = Some v.
Proof. rewrite dict_get_set, String.eqb_refl. reflexivity. Qed.

Lemma frame_wind_ok (u : upstream) (mk : string) (skip : list string) (run_dt fxx : Z)
    (fd : dict) :
  exists fd', frame_wind u mk skip run_dt fxx fd = Ok fd'
    /\ forall k, k <> "wind" -> k <> "feelslike" -> dict_get k fd' = dict_get k fd.
Proof.
  unfold frame_wind. destruct (str_in "wind" skip); [eauto|].
  destruct (merge_mix u run_dt fxx) as [names|e]; simpl; [|eauto].
  destruct (find (has_char "t") names), (find (has_char "u") names),
           (find (has_char "v") names); simpl; eauto.
  destruct (prep_ok u run_dt fxx "wind"); simpl; [|eauto].
  eexists; split; [reflexivity|]. intros k H1 H2.
  rewrite !dict_get_set_other by assumption. reflexivity.
Qed.

(** What block A leaves under ["wind"] and ["feelslike"]. *)
Lemma frame_wind_self (u : upstream) (mk : string) (skip : list string) (run_dt fxx : Z)
    (fd : dict) :
  exists fd', frame_wind u mk skip run_dt fxx fd = Ok fd'
    /\ (forall k, k <> "wind" -> k <> "feelslike" -> dict_get k fd' = dict_get k fd)
    /\ let reached :=
         negb (str_in "wind" skip)
         && match merge_mix u run_dt fxx with
            | Ok names =>
                isSome (find (has_char "t") names) && isSome (find (has_char "u") names)
                && isSome (find (has_char "v") names) && prep_ok u run_dt fxx "wind"
            | Err _ => false
            end in
       dict_get "wind" fd'
       = (if reached then Some (jopt (create_plot u mk "wind" run_dt fxx))
          else dict_get "wind" fd)
       /\ dict_get "feelslike" fd'
          = (if reached then Some (jopt (create_plot u mk "feelslike" run_dt fxx))
             else dict_get "feelslike" fd).
Proof.
  unfold frame_wind. destruct (str_in "wind" skip); simpl; [eauto|].
  destruct (merge_mix u run_dt fxx) as [names|e]; simpl; [|eauto].
  destruct (find (has_char "t") names), (find (has_char "u") names),
           (find (has_char "v") names); simpl; eauto.
  destruct (prep_ok u run_dt fxx "wind"); simpl; [|eauto].
  eexists; split; [reflexivity|]. split.
  - intros k H1 H2. rewrite !dict_get_set_other by assumption. reflexivity.
  - rewrite dict_get_set_other by discriminate. rewrite !dict_get_set_same. split; reflexivity.
Qed.

Lemma frame_var_ok (u : upstream) (mk : string) (skip : list string) (run_dt fxx : Z)
    (fd : dict) (vr : string * recipe) :
  exists fd', frame_var u mk skip run_dt fxx fd vr = Ok fd'
    /\ forall k, k <> fst vr -> dict_get k fd' = dict_get k fd.
Proof.
  destruct vr as [var_key rcp]. unfold frame_var.
  destruct (str_in var_key skip); [eauto|].
  destruct (Z.eqb fxx 0 && r_accum rcp); [eauto|].
  destruct (xarray u run_dt fxx (r_search rcp)) as [| |[|n ns]|[|p ps]]; simpl; eauto.
  destruct (prep_ok u run_dt fxx var_key); simpl; [|eauto].
  eexists; split; [reflexivity|]. intros k Hk. apply dict_get_set_other, Hk.
Qed.

(** What one iteration of loop B leaves under its own key. *)
Lemma frame_var_self (u : upstream) (mk : string) (skip : list string) (run_dt fxx : Z)
    (fd : dict) (var_key : string) (rcp : recipe) :
  exists fd', frame_var u mk skip run_dt fxx fd (var_key, rcp) = Ok fd'
    /\ dict_get var_key fd'
       = if negb (str_in var_key skip) && negb (Z.eqb fxx 0 && r_accum rcp)
            && match xarray u run_dt fxx (r_search rcp) with
               | DsVars (_ :: _) => prep_ok u run_dt fxx var_key
               | _ => false
               end
         then Some (jopt (create_plot u mk var_key run_dt fxx))
         else dict_get var_key fd.
Proof.
  unfold frame_var.
  destruct (str_in var_key skip); simpl; [eauto|].
  destruct (Z.eqb fxx 0 && r_accum rcp); simpl; [eauto|].
  destruct (xarray u run_dt fxx (r_search rcp)) as [| |[|n ns]|[|p ps]]; simpl; eauto.
  destruct (prep_ok u run_dt fxx var_key); simpl; [|eauto].
  eexists; split; [reflexivity|]. apply dict_get_set_same.
Qed.

Lemma vars_step_Ok (u : upstream) (mk : string) (skip : list string) (run_dt fxx : Z)
    (fd : dict) (vr : string * recipe) :
  vars_step u mk skip run_dt fxx (Ok fd) vr = frame_var u mk skip run_dt fxx fd vr.
Proof. reflexivity. Qed.

Lemma frame_vars_fold_ok (u : upstream) (mk : string) (skip : list string) (run_dt fxx : Z)
    (l : list (string * recipe)) (fd : dict) :
  exists fd', fold_left (vars_step u mk skip run_dt fxx) l (Ok fd) = Ok fd'
    /\ forall k, ~ In k (map fst l) -> dict_get k fd' = dict_get k fd.
Proof.
  revert fd. induction l as [|vr l IH]; intros fd; cbn [fold_left map]; [eauto|].
  destruct (frame_var_ok u mk skip run_dt fxx fd vr) as [fd1 [E1 H1]].
  rewrite vars_step_Ok, E1.
  destruct (IH fd1) as [fd2 [E2 H2]]. exists fd2. split; [exact E2|].
  intros k Hk. rewrite H2 by (intro; apply Hk; right; assumption).
  apply H1. intros E. apply Hk. left. symmetry. exact E.
Qed.

Lemma frame_vars_fold_self (u : upstream) (mk : string) (skip : list string) (run_dt fxx : Z)
    (l : list (string * recipe)) (fd : dict) (var_key : string) (rcp : recipe) :
  NoDup (map fst l) -> In (var_key, rcp) l ->
  exists fd', fold_left (vars_step u mk skip run_dt fxx) l (Ok fd) = Ok fd'
    /\ dict_get var_key fd'
       = if negb (str_in var_key skip) && negb (Z.eqb fxx 0 && r_accum rcp)
            && match xarray u run_dt fxx (r_search rcp) with
               | DsVars (_ :: _) => prep_ok u run_dt fxx var_key
               | _ => false
               end
         then Some (jopt (create_plot u mk var_key run_dt fxx))
         else dict_get var_key fd.
Proof.
  intros Hnd Hin. revert fd. induction l as [|vr l IH]; intros fd; [destruct Hin|].
  simpl in Hnd. inversion Hnd as [|x xs Hnotin Hnd' E]; subst.
  destruct Hin as [Evr|Hin].
  - subst vr. cbn [fold_left]. rewrite vars_step_Ok.
    destruct (frame_var_self u mk skip run_dt fxx fd var_key rcp) as [fd1 [E1 H1]].
    rewrite E1.
    destruct (frame_vars_fold_ok u mk skip run_dt fxx l fd1) as [fd' [E HE]].
    exists fd'. split; [exact E|]. rewrite HE by exact Hnotin. exact H1.
  - cbn [fold_left]. rewrite vars_step_Ok.
    destruct (frame_var_ok u mk skip run_dt fxx fd vr) as [fd1 [E1 H1]]. rewrite E1.
    destruct (IH Hnd' Hin fd1) as [fd' [E HE]]. exists fd'. split; [exact E|].
    rewrite HE, H1; [reflexivity|].
    intros Ek. apply Hnotin. rewrite <- Ek. apply (in_map fst _ (var_key, rcp)), Hin.
Qed.

Lemma frame_vars_unfold (u : upstream) (mk : string) (skip : list string) (run_dt fxx : Z)
    (fd : dict) :
  frame_vars u mk skip run_dt fxx fd = fold_left (vars_step u mk skip run_dt fxx) VARIABLES (Ok fd).
Proof. reflexivity. Qed.

Lemma VARIABLES_keys_NoDup : NoDup (map fst VARIABLES).
Proof. simpl. repeat constructor; simpl; intuition discriminate. Qed.

(** Every frame returned by [process_frame] holds ["fxx"] and ["valid"]. *)
Lemma process_frame_ok (u : upstream) (mk : string) (cfg : config) (run_dt fxx : Z) :
  exists fr, process_frame u mk cfg run_dt fxx = Ok fr
    /\ dict_get "fxx" fr = Some (JInt fxx)
    /\ dict_get "valid" fr = Some (JStr (fmt_HM (run_dt + fxx * US_PER_HOUR))).
Proof.
  unfold process_frame, make_herbie.
  destruct (herbie_ok u run_dt fxx); simpl; [|eauto].
  set (fd0 := [("fxx", JInt fxx); ("valid", JStr (fmt_HM (run_dt + fxx * US_PER_HOUR)))]).
  destruct (frame_wind_ok u mk (get_skip_vars cfg) run_dt fxx fd0) as [fd1 [E1 H1]].
  rewrite E1. simpl. rewrite frame_vars_unfold.
  destruct (frame_vars_fold_ok u mk (get_skip_vars cfg) run_dt fxx VARIABLES fd1)
    as [fd2 [E2 H2]].
  exists fd2. split; [exact E2|].
  split; rewrite H2, H1; try reflexivity; try discriminate; simpl; intuition discriminate.
Qed.

Lemma jopt_create_plot (u : upstream) (mk var_key : string) (run_dt fxx : Z) :
  jopt (create_plot u mk var_key run_dt fxx)
  = if render_ok u run_dt fxx var_key
    then JStr ("images/" ++ mk ++ "_" ++ var_key ++ "_f" ++ pad 2 fxx ++ ".png")
    else JNull.
Proof. unfold create_plot. destruct (render_ok u run_dt fxx var_key); reflexivity. Qed.

(** C4 counterexample: HRRR, forecast hour 1, every renderer failing:
    the frame holds ["temp"] mapped to [null]. *)
Lemma render_failure_key_is_null :
  ~ render_failure_omits_key.
Proof.
  intros H.
  assert (E : process_frame u_render_fails "hrrr" (snd (hd ("", gap_cfg) MODELS))
                T_2026_10_17_12 1
              = Ok [("fxx", JInt 1); ("valid", JStr "13:00"); ("wind", JNull);
                    ("feelslike", JNull); ("temp", JNull); ("gust", JNull);
                    ("radar", JNull); ("precip", JNull); ("snow", JNull)])
    by (vm_compute; reflexivity).
  specialize (H u_render_fails _ _ T_2026_10_17_12 1 "temp" _ eq_refl E).
  vm_compute in H. discriminate H.
Qed.

(** C4 (amended). The key of a variable is in the frame exactly when
    [process_frame] reached the assignment of [create_plot]'s result, and it
    then holds the artifact path when the renderer succeeds and [null] when
    it fails.  For a recipe of [VARIABLES]: the Herbie handle was built, the
    key is not skipped, the recipe is not accumulated at hour 0, the fetch
    returned a single dataset with at least one field, and the steps before
    [create_plot] did not raise; otherwise the key is absent.  For ["wind"]
    and ["feelslike"]: the handle was built, ["wind"] is not skipped, the
    combined fetch and its merge returned fields holding t, u and v, and the
    wind speed, apparent temperature and coordinates were computed;
    otherwise both keys are absent. *)
Theorem render_outcome_recorded :
  (forall (u : upstream) (mk : string) (cfg : config) (run_dt fxx : Z)
          (var_key : string) (rcp : recipe),
     In (var_key, rcp) VARIABLES ->
     exists fr, process_frame u mk cfg run_dt fxx = Ok fr
       /\ dict_get var_key fr
          = if herbie_ok u run_dt fxx
               && negb (str_in var_key (get_skip_vars cfg))
               && negb (Z.eqb fxx 0 && r_accum rcp)
               && match xarray u run_dt fxx (r_search rcp) with
                  | DsVars (_ :: _) => prep_ok u run_dt fxx var_key
                  | _ => false
                  end
            then Some (if render_ok u run_dt fxx var_key
                       then JStr ("images/" ++ mk ++ "_" ++ var_key ++ "_f" ++ pad 2 fxx ++ ".png")
                       else JNull)
            else None)
  /\ (forall (u : upstream) (mk : string) (cfg : config) (run_dt fxx : Z),
        let reached :=
          herbie_ok u run_dt fxx
          && negb (str_in "wind" (get_skip_vars cfg))
          && match merge_mix u run_dt fxx with
             | Ok names =>
                 isSome (find (has_char "t") names) && isSome (find (has_char "u") names)
                 && isSome (find (has_char "v") names) && prep_ok u run_dt fxx "wind"
             | Err _ => false
             end in
        exists fr, process_frame u mk cfg run_dt fxx = Ok fr
          /\ dict_get "wind" fr
             = (if reached
                then Some (if render_ok u run_dt fxx "wind"
                           then JStr ("images/" ++ mk ++ "_wind_f" ++ pad 2 fxx ++ ".png")
                           else JNull)
                else None)
          /\ dict_get "feelslike" fr
             = (if reached
                then Some (if render_ok u run_dt fxx "feelslike"
                           then JStr ("images/" ++ mk ++ "_feelslike_f" ++ pad 2 fxx ++ ".png")
                           else JNull)
                else None)).
Proof.
  split.
  - intros u mk cfg run_dt fxx var_key rcp Hin.
    assert (Hf : var_key <> "fxx" /\ var_key <> "valid"
                 /\ var_key <> "wind" /\ var_key <> "feelslike").
    { simpl in Hin. intuition congruence. }
    destruct Hf as (Hf1 & Hf2 & Hf3 & Hf4).
    unfold process_frame, make_herbie.
    destruct (herbie_ok u run_dt fxx); cbn [andb bind].
    + set (fd0 := [("fxx", JInt fxx); ("valid", JStr (fmt_HM (run_dt + fxx * US_PER_HOUR)))]).
      destruct (frame_wind_ok u mk (get_skip_vars cfg) run_dt fxx fd0) as [fd1 [E1 H1]].
      rewrite E1. cbn [bind]. rewrite frame_vars_unfold.
      destruct (frame_vars_fold_self u mk (get_skip_vars cfg) run_dt fxx VARIABLES fd1
                  var_key rcp VARIABLES_keys_NoDup Hin) as [fd2 [E2 H2]].
      exists fd2. split; [exact E2|]. rewrite H2, <- jopt_create_plot.
      destruct (_ && _); [reflexivity|].
      rewrite H1 by assumption. unfold fd0. simpl.
      apply String.eqb_neq in Hf1, Hf2. rewrite Hf1, Hf2. reflexivity.
    + eexists; split; [reflexivity|]. simpl.
      apply String.eqb_neq in Hf1, Hf2. rewrite Hf1, Hf2. reflexivity.
  - intros u mk cfg run_dt fxx reached.
    unfold process_frame, make_herbie. subst reached.
    destruct (herbie_ok u run_dt fxx); cbn [andb bind].
    + set (fd0 := [("fxx", JInt fxx); ("valid", JStr (fmt_HM (run_dt + fxx * US_PER_HOUR)))]).
      destruct (frame_wind_self u mk (get_skip_vars cfg) run_dt fxx fd0)
        as [fd1 [E1 [_ [Hw Hf]]]].
      rewrite E1. cbn [bind]. rewrite frame_vars_unfold.
      destruct (frame_vars_fold_ok u mk (get_skip_vars cfg) run_dt fxx VARIABLES fd1)
        as [fd2 [E2 H2]].
      exists fd2. split; [exact E2|].
      rewrite !H2 by (simpl; intuition discriminate). rewrite Hw, Hf.
      rewrite <- !jopt_create_plot.
      destruct (_ && _); split; reflexivity.
    + eexists; split; [reflexivity|]. split; reflexivity.
Qed.

(* ------------------------------------------------------------------ *)
(** ** Sorting *)

Lemma mapM_app {A B} (f : A -> result B) (l1 l2 : list A) (k1 k2 : list B) :
  mapM f l1 = Ok k1 -> mapM f l2 = Ok k2 -> mapM f (l1 ++ l2)%list = Ok (k1 ++ k2)%list.
Proof.
  revert k1. induction l1 as [|x t IH]; intros k1 H1 H2; simpl in *.
  - injection H1 as <-. exact H2.
  - destruct (f x) as [y|e]; [|discriminate]. simpl in *.
    destruct (mapM f t) as [ys|e]; [|discriminate]. simpl in *.
    injection H1 as <-. rewrite (IH ys eq_refl H2). reflexivity.
Qed.

Lemma insert_by_perm {K A} (ltb : K -> K -> bool) (x : K * A) (l : list (K * A)) :
  Permutation (insert_by ltb x l) (x :: l).
Proof.
  induction l as [|y t IH]; simpl; [reflexivity|].
  destruct (ltb (fst x) (fst y)); [reflexivity|].
  rewrite IH. apply perm_swap.
Qed.

Lemma sort_by_perm {K A} (ltb : K -> K -> bool) (l : list (K * A)) :
  Permutation (sort_by ltb l) l.
Proof.
  unfold sort_by.
  enough (G : forall acc, Permutation (fold_left (fun acc x => insert_by ltb x acc) l acc)
                                      (acc ++ l)%list) by apply G.
  induction l as [|x t IH]; intros acc; simpl; [rewrite app_nil_r; reflexivity|].
  rewrite IH, insert_by_perm. apply Permutation_middle.
Qed.

Lemma insert_by_sorted {A} (x : Z * A) (l : list (Z * A)) :
  Sorted key_le l -> Sorted key_le (insert_by Z.ltb x l).
Proof.
  induction l as [|y t IH]; intros Hs; simpl; [repeat constructor|].
  destruct (Z.ltb_spec (fst x) (fst y)) as [Hlt|Hge].
  - constructor; [exact Hs|]. constructor. unfold key_le. lia.
  - inversion Hs as [|? ? Ht Hhd]; subst. constructor; [apply IH, Ht|].
    destruct t as [|z t']; simpl.
    + constructor. unfold key_le. lia.
    + inversion Hhd; subst.
      destruct (Z.ltb (fst x) (fst z)); constructor; unfold key_le in *; lia.
Qed.

Lemma sort_by_sorted {A} (l : list (Z * A)) : Sorted key_le (sort_by Z.ltb l).
Proof.
  unfold sort_by.
  enough (G : forall acc, Sorted key_le acc ->
              Sorted key_le (fold_left (fun acc x => insert_by Z.ltb x acc) l acc))
    by (apply G; constructor).
  induction l as [|x t IH]; intros acc Hacc; simpl; [exact Hacc|].
  apply IH, insert_by_sorted, Hacc.
Qed.

Lemma sorted_map_fst {A} (l : list (Z * A)) :
  Sorted key_le l -> Sorted Z.le (map fst l).
Proof.
  induction 1 as [|x t Ht IH Hhd]; simpl; constructor; [exact IH|].
  destruct Hhd; simpl; constructor. exact H.
Qed.

Lemma mapM_keyed {K} (inj : K -> jval) (l : list (K * dict)) :
  keyed inj l -> mapM fr_fxx (map snd l) = Ok (map (fun p => inj (fst p)) l).
Proof.
  induction 1 as [|p t Hp Ht IH]; simpl; [reflexivity|].
  rewrite Hp. simpl. rewrite IH. reflexivity.
Qed.

Lemma keyed_perm {K} (inj : K -> jval) (l l' : list (K * dict)) :
  Permutation l l' -> keyed inj l -> keyed inj l'.
Proof.
  intros Hp Hk. unfold keyed in *. rewrite Forall_forall in *.
  intros x Hx. apply Hk. apply Permutation_in with (l := l'); [symmetry; exact Hp|exact Hx].
Qed.

Lemma keyed_combine_ints (fs : list dict) (ks : list jval) (zs : list Z) :
  mapM fr_fxx fs = Ok ks -> ints_of ks = Some zs ->
  keyed JInt (combine zs fs) /\ map (fun p => JInt (fst p)) (combine zs fs) = ks.
Proof.
  revert ks zs. induction fs as [|f t IH]; intros ks zs Hm Hi; simpl in Hm.
  - injection Hm as <-. simpl in Hi. injection Hi as <-. split; [constructor|reflexivity].
  - destruct (fr_fxx f) as [v|e] eqn:Ef; [|discriminate]. simpl in Hm.
    destruct (mapM fr_fxx t) as [vs|e]; [|discriminate]. simpl in Hm. injection Hm as <-.
    destruct v as [z| |]; simpl in Hi; try discriminate.
    destruct (ints_of vs) as [zs0|] eqn:Ez; [|discriminate]. simpl in Hi. injection Hi as <-.
    destruct (IH vs zs0 eq_refl Ez) as [Hk He]. simpl.
    split; [constructor; [exact Ef|exact Hk]|rewrite He; reflexivity].
Qed.

Lemma keyed_combine_strs (fs : list dict) (ks : list jval) (ss : list string) :
  mapM fr_fxx fs = Ok ks -> strs_of ks = Some ss ->
  keyed JStr (combine ss fs) /\ map (fun p => JStr (fst p)) (combine ss fs) = ks.
Proof.
  revert ks ss. induction fs as [|f t IH]; intros ks ss Hm Hi; simpl in Hm.
  - injection Hm as <-. simpl in Hi. injection Hi as <-. split; [constructor|reflexivity].
  - destruct (fr_fxx f) as [v|e] eqn:Ef; [|discriminate]. simpl in Hm.
    destruct (mapM fr_fxx t) as [vs|e]; [|discriminate]. simpl in Hm. injection Hm as <-.
    destruct v as [|s|]; simpl in Hi; try discriminate.
    destruct (strs_of vs) as [ss0|] eqn:Ez; [|discriminate]. simpl in Hi. injection Hi as <-.
    destruct (IH vs ss0 eq_refl Ez) as [Hk He]. simpl.
    split; [constructor; [exact Ef|exact Hk]|rewrite He; reflexivity].
Qed.

Lemma ints_of_map (zs : list Z) : ints_of (map JInt zs) = Some zs.
Proof. induction zs as [|z t IH]; simpl; [reflexivity|]. rewrite IH. reflexivity. Qed.

Lemma ints_of_some (ks : list jval) (zs : list Z) :
  ints_of ks = Some zs -> ks = map JInt zs.
Proof.
  revert zs. induction ks as [|k t IH]; intros zs H; simpl in H.
  - injection H as <-. reflexivity.
  - destruct k as [z| |]; try discriminate.
    destruct (ints_of t) as [zs0|] eqn:E; [|discriminate]. simpl in H. injection H as <-.
    simpl. rewrite (IH zs0 eq_refl). reflexivity.
Qed.

Lemma mapM_length {A B} (f : A -> result B) (l : list A) (l' : list B) :
  mapM f l = Ok l' -> List.length l' = List.length l.
Proof.
  revert l'. induction l as [|x t IH]; intros l' H; simpl in H.
  - injection H as <-. reflexivity.
  - destruct (f x); [|discriminate]. simpl in H.
    destruct (mapM f t) as [ys|]; [|discriminate]. simpl in H. injection H as <-.
    simpl. rewrite (IH ys eq_refl). reflexivity.
Qed.

(** Sorting keeps the multiset of keys; int keys come out in order. *)
Lemma sort_frames_keys (fs fs' : list dict) (ks : list jval) :
  mapM fr_fxx fs = Ok ks -> sort_frames fs = Ok fs' ->
  exists ks', mapM fr_fxx fs' = Ok ks' /\ Permutation ks ks'
    /\ forall zs, ints_of ks = Some zs ->
       exists zs', ks' = map JInt zs' /\ Sorted Z.le zs'.
Proof.
  intros Hm Hs. unfold sort_frames in Hs. rewrite Hm in Hs. simpl in Hs.
  destruct (Nat.ltb (List.length fs) 2) eqn:Hlen.
  - injection Hs as <-. exists ks. split; [exact Hm|]. split; [reflexivity|].
    intros zs Hz. exists zs. split; [apply ints_of_some, Hz|].
    apply Nat.ltb_lt in Hlen. apply mapM_length in Hm.
    rewrite (ints_of_some ks zs Hz), length_map in Hm.
    destruct zs as [|a [|b t]]; [constructor|repeat constructor|simpl in Hm; lia].
  - destruct (ints_of ks) as [zs|] eqn:Hi.
    + injection Hs as <-.
      destruct (keyed_combine_ints fs ks zs Hm Hi) as [Hk He].
      pose proof (sort_by_perm Z.ltb (combine zs fs)) as Hp.
      set (L := sort_by Z.ltb (combine zs fs)) in *.
      exists (map (fun p => JInt (fst p)) L). split.
      * apply mapM_keyed. apply (keyed_perm _ (combine zs fs)); [symmetry; exact Hp|exact Hk].
      * split; [rewrite <- He; apply Permutation_map; symmetry; exact Hp|].
        intros zs0 _. exists (map fst L). split; [rewrite map_map; reflexivity|].
        apply sorted_map_fst, sort_by_sorted.
    + destruct (strs_of ks) as [ss|] eqn:Hst; [|discriminate].
      injection Hs as <-.
      destruct (keyed_combine_strs fs ks ss Hm Hst) as [Hk He].
      pose proof (sort_by_perm String.ltb (combine ss fs)) as Hp.
      set (L := sort_by String.ltb (combine ss fs)) in *.
      exists (map (fun p => JStr (fst p)) L). split.
      * apply mapM_keyed. apply (keyed_perm _ (combine ss fs)); [symmetry; exact Hp|exact Hk].
      * split; [rewrite <- He; apply Permutation_map; symmetry; exact Hp|].
        intros zs0 Hz. discriminate Hz.
Qed.

(* ------------------------------------------------------------------ *)
(** ** Plans and merging *)

Lemma plan_cases (u : upstream) (name : string) (cfg : config) (st : status)
    (valid_dt : Z) (p : plan_result) :
  plan u name cfg st valid_dt = Ok p ->
  exists hs, py_range 0 (get_max_hours cfg + 1) (get_step cfg) = Ok hs
  /\ (p = Todo (mk_rr (fmt_run valid_dt) (c_display_name cfg) []) hs []
      \/ exists rr keys,
           existing_of st name = Some rr /\ run_time rr = fmt_run valid_dt
           /\ mapM fr_fxx (frames rr) = Ok keys
           /\ p = match case_b_schedule (probe_available u valid_dt) keys hs with
                  | [] => Done (mk_rr (fmt_run valid_dt) (c_display_name cfg) (frames rr))
                  | tp => Todo (mk_rr (fmt_run valid_dt) (c_display_name cfg) (frames rr))
                            tp keys
                  end).
Proof.
  intros H.
  destruct (py_range 0 (get_max_hours cfg + 1) (get_step cfg)) as [hs|e] eqn:Hr;
    [|unfold plan in H; rewrite Hr in H; discriminate].
  exists hs. split; [reflexivity|].
  destruct (existing_of st name) as [rr|] eqn:Hex.
  - destruct (String.eqb_spec (run_time rr) (fmt_run valid_dt)) as [Heq|Hne].
    + right. destruct (mapM fr_fxx (frames rr)) as [keys|e] eqn:Hk.
      * exists rr, keys. rewrite (plan_case_b u name cfg st valid_dt rr keys hs Hex Heq Hk Hr)
          in H. injection H as <-. repeat split; assumption.
      * unfold plan in H. rewrite Hex, Heq, fmt_run_eqb_refl, Hr in H. simpl in H.
        rewrite Hk in H. discriminate.
    + left. rewrite (plan_case_a u name cfg st valid_dt hs) in H by eauto.
      injection H as <-. reflexivity.
  - left. rewrite (plan_case_a u name cfg st valid_dt hs) in H by auto.
    injection H as <-. reflexivity.
Qed.

Lemma take_while_in {A} (p : A -> bool) (l : list A) (x : A) :
  In x (take_while p l) -> In x l /\ p x = true.
Proof.
  induction l as [|y t IH]; simpl; [tauto|].
  destruct (p y) eqn:E; simpl; [|tauto].
  intros [<-|Hx]; [auto|]. destruct (IH Hx). auto.
Qed.

Lemma take_drop_while {A} (p : A -> bool) (l : list A) :
  l = (take_while p l ++ drop_while p l)%list.
Proof.
  induction l as [|y t IH]; simpl; [reflexivity|].
  destruct (p y); simpl; [f_equal; exact IH|reflexivity].
Qed.

Lemma NoDup_take_while {A} (p : A -> bool) (l : list A) :
  NoDup l -> NoDup (take_while p l).
Proof.
  intros H. rewrite (take_drop_while p l) in H. eapply NoDup_app_remove_r; exact H.
Qed.

(** A planned hour never has a recorded frame, and is planned once. *)
Lemma plan_todo_fresh (u : upstream) (name : string) (cfg : config) (st : status)
    (valid_dt : Z) (out : run_record) (tp : list Z) (keys : list jval) :
  plan u name cfg st valid_dt = Ok (Todo out tp keys) ->
  mapM fr_fxx (frames out) = Ok keys
  /\ (forall x, In x tp -> in_keys keys x = false)
  /\ NoDup tp
  /\ run_time out = fmt_run valid_dt /\ display_name out = c_display_name cfg.
Proof.
  intros H. destruct (plan_cases _ _ _ _ _ _ H) as [hs [Hr [E | [rr [keys0 [_ [_ [Hk E]]]]]]]].
  - injection E as E1 E2 E3. subst. repeat split; try reflexivity.
    eapply py_range_NoDup; exact Hr.
  - destruct (case_b_schedule (probe_available u valid_dt) keys0 hs) as [|x0 t0] eqn:Hs;
      [discriminate|].
    injection E as E1 E2 E3. subst. rewrite <- Hs. unfold case_b_schedule.
    repeat split; try reflexivity; try exact Hk.
    + intros x Hx. apply take_while_in in Hx. destruct Hx as [Hx _].
      apply filter_In in Hx. destruct Hx as [_ Hx]. apply negb_true_iff, Hx.
    + apply NoDup_take_while, NoDup_filter. eapply py_range_NoDup; exact Hr.
Qed.

Lemma gen_fold_err (u : upstream) (name : string) (cfg : config) (valid_dt : Z)
    (keys : list jval) (tp : list Z) (e : exn) :
  fold_left (gen_step u name cfg valid_dt keys) tp (Err e) = Err e.
Proof. induction tp as [|x t IH]; simpl; [reflexivity|exact IH]. Qed.

Lemma fr_fxx_of_frame (u : upstream) (mk : string) (cfg : config) (run_dt fxx : Z)
    (fr : dict) :
  process_frame u mk cfg run_dt fxx = Ok fr -> fr_fxx fr = Ok (JInt fxx).
Proof.
  intros H. destruct (process_frame_ok u mk cfg run_dt fxx) as [fr' [E [Hf _]]].
  rewrite E in H. injection H as <-. unfold fr_fxx. rewrite Hf. reflexivity.
Qed.

Lemma gen_fold_fresh (u : upstream) (name : string) (cfg : config) (valid_dt : Z)
    (keys : list jval) (tp : list Z) (fs : list dict) (ks : list jval) :
  (forall x, In x tp -> in_keys keys x = false) ->
  mapM fr_fxx fs = Ok ks ->
  exists fs', fold_left (gen_step u name cfg valid_dt keys) tp (Ok fs) = Ok fs'
    /\ mapM fr_fxx fs' = Ok (ks ++ map JInt tp)%list.
Proof.
  revert fs ks. induction tp as [|x t IH]; intros fs ks Hfresh Hm; cbn [fold_left map].
  - exists fs. rewrite app_nil_r. split; [reflexivity|exact Hm].
  - destruct (process_frame_ok u name cfg valid_dt x) as [fd [Efd _]].
    unfold gen_step at 2. cbn [bind]. rewrite Efd. cbn [bind].
    rewrite (Hfresh x (or_introl eq_refl)).
    assert (Hm' : mapM fr_fxx (fs ++ [fd])%list = Ok (ks ++ [JInt x])%list).
    { apply mapM_app; [exact Hm|]. simpl.
      rewrite (fr_fxx_of_frame u name cfg valid_dt x fd Efd). reflexivity. }
    destruct (IH (fs ++ [fd])%list (ks ++ [JInt x])%list
                (fun y Hy => Hfresh y (or_intror Hy)) Hm') as [fs' [E H]].
    exists fs'. split; [exact E|]. rewrite H, <- app_assoc. reflexivity.
Qed.

Lemma generate_fresh (u : upstream) (name : string) (cfg : config) (valid_dt : Z)
    (out : run_record) (tp : list Z) (keys k0 : list jval) (r : run_record) :
  (forall x, In x tp -> in_keys keys x = false) ->
  mapM fr_fxx (frames out) = Ok k0 ->
  generate u name cfg valid_dt out tp keys = Ok r ->
  exists ks, mapM fr_fxx (frames r) = Ok ks
    /\ Permutation (k0 ++ map JInt tp)%list ks
    /\ run_time r = run_time out /\ display_name r = display_name out
    /\ forall z0, ints_of k0 = Some z0 -> exists zs, ks = map JInt zs /\ Sorted Z.le zs.
Proof.
  intros Hfresh Hm Hg. unfold generate in Hg.
  destruct (gen_fold_fresh u name cfg valid_dt keys tp (frames out) k0 Hfresh Hm)
    as [fs [Ef Hfs]].
  rewrite Ef in Hg. simpl in Hg.
  destruct (sort_frames fs) as [fs'|e] eqn:Hs; [|discriminate]. simpl in Hg.
  injection Hg as <-. simpl.
  destruct (sort_frames_keys fs fs' _ Hfs Hs) as [ks [Hks [Hp Hsort]]].
  exists ks. repeat split; try assumption.
  intros z0 Hz. apply (Hsort (z0 ++ tp)%list).
  rewrite (ints_of_some k0 z0 Hz), <- map_app. apply ints_of_map.
Qed.

Lemma in_keys_perm (a b : list jval) (h : Z) :
  Permutation a b -> in_keys a h = in_keys b h.
Proof.
  unfold in_keys. induction 1; simpl; try reflexivity.
  - rewrite IHPermutation. reflexivity.
  - rewrite !orb_assoc, (orb_comm (jeq_int h y)). reflexivity.
  - congruence.
Qed.

Lemma in_keys_app (a b : list jval) (h : Z) :
  in_keys (a ++ b)%list h = in_keys a h || in_keys b h.
Proof. unfold in_keys. apply existsb_app. Qed.

Lemma in_keys_map_JInt (zs : list Z) (h : Z) :
  in_keys (map JInt zs) h = existsb (Z.eqb h) zs.
Proof. induction zs as [|z t IH]; simpl; [reflexivity|]. rewrite IH. reflexivity. Qed.

Lemma filter_none_left (l l' : list Z) :
  (forall x, In x l -> In x l') ->
  filter (fun h => negb (existsb (Z.eqb h) l')) l = [].
Proof.
  induction l as [|x t IH]; intros Hsub; simpl; [reflexivity|].
  replace (existsb (Z.eqb x) l') with true.
  - simpl. apply IH. intros y Hy. apply Hsub. right. exact Hy.
  - symmetry. apply existsb_exists. exists x. split; [apply Hsub; left; reflexivity|].
    apply Z.eqb_refl.
Qed.

(** Once the queued hours are recorded, the scan finds nothing to queue:
    the first hour it now reaches is the one that failed before. *)
Lemma second_pass_empty (avail : Z -> bool) (L extra : list Z) :
  (forall e, In e extra -> avail e = true) ->
  take_while avail
    (filter (fun h => negb (existsb (Z.eqb h) (extra ++ take_while avail L))) L) = [].
Proof.
  revert extra. induction L as [|x t IH]; intros extra Hex; simpl; [reflexivity|].
  destruct (avail x) eqn:Ha.
  - replace (existsb (Z.eqb x) (extra ++ x :: take_while avail t)) with true.
    + simpl. replace (extra ++ x :: take_while avail t)%list
        with ((extra ++ [x]) ++ take_while avail t)%list by (rewrite <- app_assoc; reflexivity).
      apply IH. intros e He. apply in_app_or in He. destruct He as [He|[<-|[]]]; auto.
    + symmetry. rewrite existsb_app. apply orb_true_intro. right. simpl.
      rewrite Z.eqb_refl. reflexivity.
  - rewrite app_nil_r.
    replace (existsb (Z.eqb x) extra) with false.
    + simpl. rewrite Ha. reflexivity.
    + symmetry. apply not_true_iff_false. intros He. apply existsb_exists in He.
      destruct He as [e [He Hxe]]. apply Z.eqb_eq in Hxe. subst e.
      rewrite (Hex x He) in Ha. discriminate.
Qed.

Lemma filter_negb_or {A} (f g : A -> bool) (l : list A) :
  filter (fun h => negb (f h || g h)) l = filter (fun h => negb (g h)) (filter (fun h => negb (f h)) l).
Proof.
  induction l as [|x t IH]; simpl; [reflexivity|].
  destruct (f x) eqn:Ef, (g x) eqn:Eg; simpl; rewrite ?Ef, ?Eg; simpl; rewrite IH; reflexivity.
Qed.

Lemma schedule_after_merge (avail : Z -> bool) (keys ks : list jval) (tp hs : list Z) :
  (forall h, in_keys ks h = in_keys keys h || existsb (Z.eqb h) tp) ->
  (tp = hs /\ keys = [] \/ tp = case_b_schedule avail keys hs) ->
  case_b_schedule avail ks hs = [].
Proof.
  intros Hk Hcase. unfold case_b_schedule.
  rewrite (filter_ext _ (fun h => negb (in_keys keys h || existsb (Z.eqb h) tp)))
    by (intros h; rewrite Hk; reflexivity).
  destruct Hcase as [[-> ->] | ->].
  - simpl. rewrite filter_none_left by auto. reflexivity.
  - rewrite filter_negb_or. unfold case_b_schedule.
    apply (second_pass_empty avail _ []). intros e [].
Qed.

(** C7. Idempotence: when the first invocation returns [r] for a model,
    a second one at the same wall-clock time, against the same upstream
    data and with the stored state holding [r] for that model, returns
    [r] again: nothing is queued and no frame is added. *)
Theorem reconcile_idempotent (u : upstream) (name : string) (cfg : config)
    (st st' : status) (now : Z) (r : option run_record) :
  process_model u name cfg st now = Ok r ->
  existing_of st' name = r ->
  process_model u name cfg st' now = Ok r.
Proof.
  intros H Hst. unfold process_model in *.
  destruct (get_run_time cfg now) as [base|e]; [|discriminate]. cbn [bind] in *.
  destruct (discover u cfg base) as [v|]; [|exact H].
  destruct (plan u name cfg st v) as [p|e] eqn:Hp; [|discriminate]. cbn [bind] in H.
  destruct (plan_cases _ _ _ _ _ _ Hp) as [hs [Hr Hcase]].
  destruct p as [out|out tp keys].
  - injection H as <-.
    destruct Hcase as [E | [rr [keys [_ [Hrt [Hk E]]]]]]; [discriminate|].
    destruct (case_b_schedule (probe_available u v) keys hs) eqn:Hs; [|discriminate].
    injection E as ->.
    rewrite (plan_case_b u name cfg st' v _ keys hs Hst eq_refl Hk Hr). simpl.
    rewrite Hs. reflexivity.
  - destruct (generate u name cfg v out tp keys) as [r0|e] eqn:Hg; [|discriminate].
    injection H as <-.
    destruct (plan_todo_fresh _ _ _ _ _ _ _ _ Hp) as [Hk0 [Hfresh [_ [Hrt Hdn]]]].
    destruct (generate_fresh _ _ _ _ _ _ _ _ _ Hfresh Hk0 Hg)
      as [ks [Hks [Hperm [Hrt' [Hdn' _]]]]].
    assert (Hmem : forall h, in_keys ks h = in_keys keys h || existsb (Z.eqb h) tp).
    { intros h. rewrite <- (in_keys_perm _ _ h Hperm), in_keys_app, in_keys_map_JInt.
      reflexivity. }
    assert (Hsched : case_b_schedule (probe_available u v) ks hs = []).
    { apply (schedule_after_merge _ keys ks tp hs Hmem).
      destruct Hcase as [E | [rr [keys0 [_ [_ [_ E]]]]]].
      - injection E as _ -> ->. left. split; reflexivity.
      - right. destruct (case_b_schedule (probe_available u v) keys0 hs) eqn:Hs;
          [discriminate|].
        injection E as _ E2 E3. subst. symmetry. exact Hs. }
    assert (Hrt0 : run_time r0 = fmt_run v) by congruence.
    rewrite (plan_case_b u name cfg st' v r0 ks hs Hst Hrt0 Hks Hr), Hsched. simpl.
    destruct r0 as [rt dn fs]. simpl in *. congruence.
Qed.


Lemma sorted_le_NoDup_lt (zs : list Z) : Sorted Z.le zs -> NoDup zs -> Sorted Z.lt zs.
Proof.
  induction 1 as [|a t Ht IH Hhd]; intros Hnd; constructor.
  - apply IH. inversion Hnd; assumption.
  - inversion Hnd as [|? ? Hnotin _]; subst. destruct Hhd as [|b t' Hab]; constructor.
    assert (a <> b) by (intros ->; apply Hnotin; left; reflexivity). lia.
Qed.






Lemma mapM_in {A B} (f : A -> result B) (l : list A) (ys : list B) (x : A) :
  mapM f l = Ok ys -> In x l -> exists y, f x = Ok y /\ In y ys.
Proof.
  revert ys. induction l as [|a t IH]; intros ys H Hx; [destruct Hx|].
  simpl in H. destruct (f a) as [b|e] eqn:Ea; [|discriminate]. simpl in H.
  destruct (mapM f t) as [bs|e]; [|discriminate]. simpl in H. injection H as <-.
  destruct Hx as [<-|Hx].
  - exists b. split; [exact Ea|left; reflexivity].
  - destruct (IH bs eq_refl Hx) as [y [Ey Hy]]. exists y. split; [exact Ey|right; exact Hy].
Qed.

Lemma ints_of_length (ks : list jval) (zs : list Z) :
  ints_of ks = Some zs -> List.length zs = List.length ks.
Proof. intros H. rewrite (ints_of_some ks zs H), length_map. reflexivity. Qed.

Lemma strs_of_length (ks : list jval) (ss : list string) :
  strs_of ks = Some ss -> List.length ss = List.length ks.
Proof.
  revert ss. induction ks as [|k t IH]; intros ss H; simpl in H.
  - injection H as <-. reflexivity.
  - destruct k as [|s|]; try discriminate.
    destruct (strs_of t) as [ss0|] eqn:E; [|discriminate]. simpl in H. injection H as <-.
    simpl. rewrite (IH ss0 eq_refl). reflexivity.
Qed.

Lemma in_combine_snd {K A} (ks : list K) (l : list A) (x : A) :
  List.length ks = List.length l -> In x l -> exists k, In (k, x) (combine ks l).
Proof.
  revert ks. induction l as [|a t IH]; intros ks Hl Hx; [destruct Hx|].
  destruct ks as [|k ks]; [discriminate|]. simpl in Hl. injection Hl as Hl.
  destruct Hx as [<-|Hx].
  - exists k. left. reflexivity.
  - destruct (IH ks Hl Hx) as [k' Hk]. exists k'. right. exact Hk.
Qed.

Lemma in_sorted_combine {K A} (ltb : K -> K -> bool) (ks : list K) (l : list A) (x : A) :
  List.length ks = List.length l -> In x l -> In x (map snd (sort_by ltb (combine ks l))).
Proof.
  intros Hl Hx. destruct (in_combine_snd ks l x Hl Hx) as [k Hk].
  apply (in_map snd (sort_by ltb (combine ks l)) (k, x)).
  apply (Permutation_in (l := combine ks l)); [symmetry; apply sort_by_perm|exact Hk].
Qed.

Lemma sort_frames_in (fs fs' : list dict) (f : dict) :
  sort_frames fs = Ok fs' -> In f fs -> In f fs'.
Proof.
  intros Hs Hf. unfold sort_frames in Hs.
  destruct (mapM fr_fxx fs) as [ks|e] eqn:Hm; [|discriminate]. cbn [bind] in Hs.
  pose proof (mapM_length _ _ _ Hm) as Hl.
  destruct (Nat.ltb (List.length fs) 2).
  - injection Hs as <-. exact Hf.
  - destruct (ints_of ks) as [zs|] eqn:Hi.
    + injection Hs as <-. apply in_sorted_combine; [|exact Hf].
      rewrite (ints_of_length ks zs Hi). exact Hl.
    + destruct (strs_of ks) as [ss|] eqn:Hst; [|discriminate].
      injection Hs as <-. apply in_sorted_combine; [|exact Hf].
      rewrite (strs_of_length ks ss Hst). exact Hl.
Qed.

Lemma gen_fold_frames (u : upstream) (name : string) (cfg : config) (valid_dt : Z)
    (keys : list jval) (tp : list Z) (fs fs' : list dict) :
  (forall x, In x tp -> in_keys keys x = false) ->
  fold_left (gen_step u name cfg valid_dt keys) tp (Ok fs) = Ok fs' ->
  (forall f, In f fs -> In f fs')
  /\ forall x fd, In x tp -> process_frame u name cfg valid_dt x = Ok fd -> In fd fs'.
Proof.
  revert fs. induction tp as [|x t IH]; intros fs Hfresh H; cbn [fold_left] in H.
  - injection H as <-. split; [auto|intros x fd []].
  - destruct (process_frame_ok u name cfg valid_dt x) as [fd [Efd _]].
    unfold gen_step at 2 in H. cbn [bind] in H. rewrite Efd in H. cbn [bind] in H.
    rewrite (Hfresh x (or_introl eq_refl)) in H.
    destruct (IH (fs ++ [fd])%list (fun y Hy => Hfresh y (or_intror Hy)) H) as [Hkeep Hnew].
    split.
    + intros f Hf. apply Hkeep, in_or_app. left. exact Hf.
    + intros y fd' [<-|Hy] Ey.
      * rewrite Efd in Ey. injection Ey as <-. apply Hkeep, in_or_app. right. left. reflexivity.
      * exact (Hnew y fd' Hy Ey).
Qed.

Lemma jeq_int_refl (h : Z) : jeq_int h (JInt h) = true.
Proof. apply Z.eqb_refl. Qed.

(** C10. [process_frame] never raises: for every scheduled hour it
    returns a frame holding ["fxx"] (the hour) and ["valid"] (the
    run time plus the hour, as HH:MM), also when the fetch handle
    cannot be built or every variable fails.  That very frame is in the
    returned record, and a later Case-B plan against a stored record
    equal to it never queues the hour again. *)
Theorem frame_always_recorded (u : upstream) (name : string) (cfg : config) (st : status)
    (now base valid_dt : Z) (out : run_record) (tp : list Z) (keys : list jval)
    (r : run_record) (h : Z) :
  get_run_time cfg now = Ok base ->
  discover u cfg base = Some valid_dt ->
  plan u name cfg st valid_dt = Ok (Todo out tp keys) ->
  process_model u name cfg st now = Ok (Some r) ->
  In h tp ->
  (exists fr, process_frame u name cfg valid_dt h = Ok fr
     /\ dict_get "fxx" fr = Some (JInt h)
     /\ dict_get "valid" fr = Some (JStr (fmt_HM (valid_dt + h * US_PER_HOUR)))
     /\ In fr (frames r))
  /\ forall (u' : upstream) (st' : status) (valid_dt' : Z) (p' : plan_result),
       existing_of st' name = Some r -> run_time r = fmt_run valid_dt' ->
       plan u' name cfg st' valid_dt' = Ok p' ->
       match p' with Done _ => True | Todo _ tp' _ => ~ In h tp' end.
Proof.
  intros Hb Hd Hp Hpm Hh.
  unfold process_model in Hpm. rewrite Hb in Hpm. cbn [bind] in Hpm. rewrite Hd, Hp in Hpm.
  cbn [bind] in Hpm.
  destruct (generate u name cfg valid_dt out tp keys) as [r0|e] eqn:Hg; [|discriminate].
  cbn [bind] in Hpm. injection Hpm as <-.
  destruct (plan_todo_fresh _ _ _ _ _ _ _ _ Hp) as [_ [Hfresh _]].
  destruct (process_frame_ok u name cfg valid_dt h) as [fr [Efr [Hfx Hvalid]]].
  assert (Hin : In fr (frames r0)).
  { unfold generate in Hg.
    destruct (fold_left (gen_step u name cfg valid_dt keys) tp (Ok (frames out)))
      as [fs|e] eqn:Hf; [|discriminate].
    cbn [bind] in Hg. destruct (sort_frames fs) as [fs'|e] eqn:Hs; [|discriminate].
    cbn [bind] in Hg. injection Hg as <-. simpl.
    destruct (gen_fold_frames u name cfg valid_dt keys tp _ fs Hfresh Hf) as [_ Hnew].
    exact (sort_frames_in fs fs' fr Hs (Hnew h fr Hh Efr)). }
  split; [exists fr; repeat split; assumption|].
  intros u' st' v' p' Hex Hrt Hp'.
  destruct (plan_cases _ _ _ _ _ _ Hp') as [hs [Hr _]].
  destruct (mapM fr_fxx (frames r0)) as [ks|e] eqn:Hm.
  2:{ unfold plan in Hp'. rewrite Hex, Hrt, fmt_run_eqb_refl, Hr in Hp'. simpl in Hp'.
      rewrite Hm in Hp'. discriminate. }
  rewrite (plan_case_b u' name cfg st' v' r0 ks hs Hex Hrt Hm Hr) in Hp'.
  injection Hp' as <-.
  destruct (case_b_schedule (probe_available u' v') ks hs) as [|x0 t0] eqn:Hsch; [exact I|].
  rewrite <- Hsch. unfold case_b_schedule. intros Hx.
  apply take_while_in in Hx. destruct Hx as [Hx _].
  apply filter_In in Hx. destruct Hx as [_ Hx]. apply negb_true_iff in Hx.
  destruct (mapM_in fr_fxx (frames r0) ks fr Hm Hin) as [y [Ey Hy]].
  unfold fr_fxx in Ey. rewrite Hfx in Ey. injection Ey as <-.
  assert (Ht : in_keys ks h = true)
    by (apply existsb_exists; exists (JInt h); split; [exact Hy|apply jeq_int_refl]).
  congruence.
Qed.

(* ------------------------------------------------------------------ *)
(** ** Field arithmetic (numpy arrays as lists of reals) *)

Module FieldsFacts.
Import Fields.
Local Open Scope R_scope.

Lemma convert_units_in (x : R) : convert_units "in" x = x * 0.0393701.
Proof. reflexivity. Qed.

Lemma nth_error_combine {A B} (l : list A) (l' : list B) (i : nat) (x : A) (y : B) :
  nth_error l i = Some x -> nth_error l' i = Some y -> nth_error (combine l l') i = Some (x, y).
Proof.
  revert l' i. induction l as [|a t IH]; intros l' i Hx Hy.
  - destruct i; discriminate.
  - destruct l' as [|b t']; [destruct i; discriminate|].
    destruct i as [|i]; simpl in *.
    + injection Hx as <-. injection Hy as <-. reflexivity.
    + exact (IH t' i Hx Hy).
Qed.

Lemma calculate_apparent_temp_nth (Ts Vs : list R) (i : nat) (T V : R) :
  nth_error Ts i = Some T -> nth_error Vs i = Some V ->
  nth_error (calculate_apparent_temp Ts Vs) i =
  Some (if Rltb T 50 && Rltb 3 V
        then 35.74 + 0.6215 * T - 35.75 * Rpower V 0.16 + 0.4275 * T * Rpower V 0.16
        else T).
Proof.
  intros HT HV. unfold calculate_apparent_temp, np_where.
  pose proof (nth_error_combine Ts Vs i T V HT HV) as HTV.
  rewrite nth_error_map.
  rewrite (nth_error_combine _ _ i (Rltb T 50 && Rltb 3 V)
             (35.74 + 0.6215 * T - 35.75 * Rpower V 0.16 + 0.4275 * T * Rpower V 0.16, T)).
  - reflexivity.
  - rewrite nth_error_map, HTV. reflexivity.
  - apply nth_error_combine; [|exact HT]. rewrite nth_error_map, HTV. reflexivity.
Qed.

(** C5 counterexample: [precip] has unit ["in"], and 1 unit of it
    becomes 0.0393701, not 39.3701. *)
Lemma precip_one_unit_not_39_3701 : ~ depth_converts_meters.
Proof.
  intros H.
  assert (Hin : In ("precip", mk_recipe "1-hr Total Precip" ":APCP:" "in" true) VARIABLES)
    by (simpl; tauto).
  specialize (H _ Hin eq_refl). cbn [snd r_unit] in H.
  rewrite convert_units_in in H. apply Rabs_def2 in H. lra.
Qed.

(** C5 (amended). The variables with unit ["in"] are [precip] and
    [snow]; plot_models.py multiplies their fetched values by 0.0393701
    (millimetres to inches), so 1000 becomes 39.3701 and 1 becomes
    0.0393701.  The legacy generate_images.py multiplies snow by 39.37. *)
Theorem inch_conversion_factor :
  (forall vr, In vr VARIABLES -> r_unit (snd vr) = "in" ->
     (fst vr = "precip" \/ fst vr = "snow")
     /\ forall x, convert_units (r_unit (snd vr)) x = x * 0.0393701)
  /\ convert_units "in" 1000 = 39.3701
  /\ convert_units "in" 1 = 0.0393701
  /\ legacy_snow 1 = 39.37.
Proof.
  split; [|split; [|split]].
  - intros vr Hin Hu. rewrite Hu. split; [|exact convert_units_in].
    simpl in Hin.
    destruct Hin as [<-|[<-|[<-|[<-|[<-|[]]]]]]; cbn in Hu |- *;
      try discriminate; [left|right]; reflexivity.
  - rewrite convert_units_in. lra.
  - rewrite convert_units_in. lra.
  - unfold legacy_snow. lra.
Qed.

(** C6. At every grid point where T (°F) and V (mph) are given, the
    apparent temperature is the wind-chill value
    35.74 + 0.6215 T - 35.75 V^0.16 + 0.4275 T V^0.16 when T < 50 and
    V > 3, and T otherwise; at T = 60 °F, V = 10 mph it is exactly 60. *)
Theorem apparent_temp_wind_chill (Ts Vs : list R) (i : nat) (T V : R) :
  nth_error Ts i = Some T -> nth_error Vs i = Some V ->
  (T < 50 -> 3 < V ->
   nth_error (calculate_apparent_temp Ts Vs) i =
   Some (35.74 + 0.6215 * T - 35.75 * Rpower V 0.16 + 0.4275 * T * Rpower V 0.16))
  /\ (~ (T < 50 /\ 3 < V) -> nth_error (calculate_apparent_temp Ts Vs) i = Some T)
  /\ calculate_apparent_temp [60] [10] = [60].
Proof.
  intros HT HV. rewrite (calculate_apparent_temp_nth Ts Vs i T V HT HV).
  unfold Rltb. split; [|split].
  - intros H1 H2. destruct (Rlt_dec T 50); [|contradiction].
    destruct (Rlt_dec 3 V); [reflexivity|contradiction].
  - intros Hn. destruct (Rlt_dec T 50), (Rlt_dec 3 V); try reflexivity.
    exfalso. apply Hn. split; assumption.
  - unfold calculate_apparent_temp, np_where, Rltb. cbn [combine map fst snd].
    destruct (Rlt_dec 60 50); [lra|]. reflexivity.
Qed.

Lemma inch_conversion_factor_witness :
  convert_units (r_unit (snd ("snow", mk_recipe "1-hr Snowfall" ":(ASNOW|WEASD):" "in" true))) 2
  = 2 * 0.0393701.
Proof.
  apply (proj2 (proj1 inch_conversion_factor
                  ("snow", mk_recipe "1-hr Snowfall" ":(ASNOW|WEASD):" "in" true)
                  ltac:(simpl; tauto) eq_refl)).
Defined.

Lemma apparent_temp_wind_chill_witness :
  nth_error (calculate_apparent_temp [40] [10]) 0
  = Some (35.74 + 0.6215 * 40 - 35.75 * Rpower 10 0.16 + 0.4275 * 40 * Rpower 10 0.16).
Proof.
  apply (proj1 (apparent_temp_wind_chill [40] [10] 0 40 10 eq_refl eq_refl)); lra.
Defined.

End FieldsFacts.

Lemma fs_get_put_same (p c : string) (fs : fs_state) : fs_get p (fs_put p c fs) = Some c.
Proof.
  induction fs as [|[p' c'] t IH]; simpl.
  - rewrite String.eqb_refl. reflexivity.
  - destruct (String.eqb p p') eqn:E; simpl; rewrite E; [reflexivity|exact IH].
Qed.

Lemma fs_run_chunks (p c : string) (l : list string) (fs : fs_state) :
  fs_get p fs = Some c ->
  fs_get p (fs_run (map (WriteChunk p) l) fs) = Some (fold_left String.append l c).
Proof.
  revert c fs. induction l as [|a t IH]; intros c fs H; [exact H|].
  unfold fs_run. cbn [map fold_left]. apply IH.
  simpl. rewrite H. apply fs_get_put_same.
Qed.

(** C9 counterexample: with an empty model list, a crash right after
    [open('site/status.json', 'w')] leaves an empty file, neither the
    old contents nor the new report. *)
Lemma crash_after_open_truncates : ~ persist_atomic.
Proof.
  intros H.
  specialize (H u_all_available [] 0 [] (fun _ => ["{}"]) [(STATUS_PATH, "{}")] 2%nat).
  vm_compute in H. destruct H; discriminate.
Qed.

(** C9 (amended). status.json is opened once, after the loop over all
    models has finished, with [open(path, 'w')], which truncates it in
    place, and the encoded report is then written chunk by chunk into
    that same file: after the truncation and k chunks it holds exactly
    the first k chunks.  When an exception ends the loop, the file is
    not touched. *)
Theorem status_written_once_in_place (u : upstream) (st : status) (now : Z)
    (models : list (string * config)) (encode : status -> list string) (fs0 : fs_state) :
  (forall rep, main_loop u st now (Ok []) models = Ok rep ->
     main_trace u st now models encode
     = MakeDirs "site/images" :: OpenWrite STATUS_PATH
       :: map (WriteChunk STATUS_PATH) (encode rep)
     /\ forall k, fs_get STATUS_PATH (fs_run (firstn (2 + k) (main_trace u st now models encode)) fs0)
                  = Some (fold_left String.append (firstn k (encode rep)) ""))
  /\ (forall e, main_loop u st now (Ok []) models = Err e ->
        main_trace u st now models encode = [MakeDirs "site/images"]
        /\ fs_run (main_trace u st now models encode) fs0 = fs0).
Proof.
  split.
  - intros rep H.
    assert (Htr : main_trace u st now models encode
                  = MakeDirs "site/images" :: OpenWrite STATUS_PATH
                    :: map (WriteChunk STATUS_PATH) (encode rep))
      by (unfold main_trace; rewrite H; reflexivity).
    split; [exact Htr|]. intros k. rewrite Htr.
    cbn [Nat.add firstn]. rewrite firstn_map.
    unfold fs_run. cbn [fold_left]. apply fs_run_chunks.
    simpl. apply fs_get_put_same.
  - intros e H. unfold main_trace. rewrite H. split; reflexivity.
Qed.

(* ------------------------------------------------------------------ *)
(** ** Instances of the theorems on concrete runs *)

Lemma case_b_scan_stops_at_first_gap_witness :
  plan u_no_herbie "hrrr" gap_cfg st_hour0 T_2026_10_17_11
  = Ok (Todo (mk_rr "2026-10-17 11z" "HRRR" [[("fxx", JInt 0)]]) [1] [JInt 0]).
Proof.
  assert (H1 : existing_of st_hour0 "hrrr"
               = Some (mk_rr "2026-10-17 11z" "HRRR" [[("fxx", JInt 0)]]))
    by (vm_compute; reflexivity).
  assert (H2 : run_time (mk_rr "2026-10-17 11z" "HRRR" [[("fxx", JInt 0)]])
               = fmt_run T_2026_10_17_11) by (vm_compute; reflexivity).
  assert (H3 : mapM fr_fxx (frames (mk_rr "2026-10-17 11z" "HRRR" [[("fxx", JInt 0)]]))
               = Ok [JInt 0]) by (vm_compute; reflexivity).
  assert (H4 : py_range 0 (get_max_hours gap_cfg + 1) (get_step gap_cfg) = Ok [0; 1; 2; 3])
    by (vm_compute; reflexivity).
  destruct (case_b_scan_stops_at_first_gap u_no_herbie "hrrr" gap_cfg st_hour0
              T_2026_10_17_11 _ _ _ H1 H2 H3 H4) as [[E _] _].
  rewrite E. vm_compute. reflexivity.
Defined.

Lemma discovery_four_candidates_witness :
  get_run_time gap_cfg T_2026_10_17_12 = Ok T_2026_10_17_11.
Proof.
  assert (H : 0 < get_cycle_hrs gap_cfg) by (vm_compute; reflexivity).
  pose proof (discovery_four_candidates u_no_herbie "hrrr" gap_cfg [] T_2026_10_17_12 H) as P.
  cbv zeta in P. destruct P as [E _]. rewrite E. vm_compute. reflexivity.
Defined.

Lemma case_a_schedules_all_hours_witness :
  plan u_no_herbie "hrrr" gap_cfg [] T_2026_10_17_11
  = Ok (Todo (mk_rr "2026-10-17 11z" "HRRR" []) [0; 1; 2; 3] []).
Proof.
  assert (H1 : existing_of [] "hrrr" = None
               \/ exists rr, existing_of [] "hrrr" = Some rr
                              /\ run_time rr <> fmt_run T_2026_10_17_11)
    by (left; vm_compute; reflexivity).
  assert (H2 : py_range 0 (get_max_hours gap_cfg + 1) (get_step gap_cfg) = Ok [0; 1; 2; 3])
    by (vm_compute; reflexivity).
  destruct (case_a_schedules_all_hours u_no_herbie "hrrr" gap_cfg [] T_2026_10_17_11 _ H1 H2)
    as [E _].
  rewrite E. vm_compute. reflexivity.
Defined.

Lemma render_outcome_recorded_witness :
  (exists fr, process_frame u_render_fails "hrrr" gap_cfg T_2026_10_17_11 1 = Ok fr
              /\ dict_get "temp" fr = Some JNull)
  /\ (exists fr, process_frame u_render_fails "hrrr" gap_cfg T_2026_10_17_11 1 = Ok fr
                 /\ dict_get "wind" fr = Some JNull /\ dict_get "feelslike" fr = Some JNull).
Proof.
  split.
  - destruct (proj1 render_outcome_recorded u_render_fails "hrrr" gap_cfg T_2026_10_17_11 1
                "temp" (mk_recipe "Temperature (2m)" ":TMP:2 m" "F" false)
                ltac:(simpl; tauto)) as [fr [E H]].
    exists fr. split; [exact E|]. rewrite H. vm_compute. reflexivity.
  - destruct (proj2 render_outcome_recorded u_render_fails "hrrr" gap_cfg T_2026_10_17_11 1)
      as [fr [E [Hw Hf]]].
    exists fr. split; [exact E|]. rewrite Hw, Hf. vm_compute. split; reflexivity.
Defined.

Lemma reconcile_idempotent_witness :
  process_model u_no_herbie "hrrr" gap_cfg [("hrrr", Some rr_no_herbie)] T_2026_10_17_12
  = Ok (Some rr_no_herbie).
Proof.
  apply (reconcile_idempotent u_no_herbie "hrrr" gap_cfg [] _ T_2026_10_17_12);
    vm_compute; reflexivity.
Defined.


Lemma status_written_once_in_place_witness :
  fs_get STATUS_PATH
    (fs_run (firstn 3 (main_trace u_no_herbie [] T_2026_10_17_12 [] (fun _ => ["{"; "}"]))) [])
  = Some "{".
Proof.
  destruct (status_written_once_in_place u_no_herbie [] T_2026_10_17_12 []
              (fun _ => ["{"; "}"]) []) as [H _].
  destruct (H [] ltac:(vm_compute; reflexivity)) as [_ Hk].
  exact (Hk 1%nat).
Defined.

Lemma frame_always_recorded_witness :
  exists fr, process_frame u_no_herbie "hrrr" gap_cfg T_2026_10_17_11 2 = Ok fr
             /\ In fr (frames rr_no_herbie).
Proof.
  destruct (frame_always_recorded u_no_herbie "hrrr" gap_cfg [] T_2026_10_17_12
              T_2026_10_17_11 T_2026_10_17_11 (mk_rr "2026-10-17 11z" "HRRR" [])
              [0; 1; 2; 3] [] rr_no_herbie 2
              ltac:(vm_compute; reflexivity) ltac:(vm_compute; reflexivity)
              ltac:(vm_compute; reflexivity) ltac:(vm_compute; reflexivity)
              ltac:(simpl; tauto)) as [[fr [E [_ [_ Hin]]]] _].
  exists fr. split; assumption.
Defined.

(* ------------------------------------------------------------------ *)
(** ** The keys of a frame *)

Lemma dsets_trans (P : string -> Prop) (d1 d2 d3 : dict) :
  dsets P d1 d2 -> dsets P d2 d3 -> dsets P d1 d3.
Proof. intros H12 H23. induction H23; [exact H12|]. apply ds_set; auto. Qed.

Lemma dsets_mono (P Q : string -> Prop) (d d' : dict) :
  (forall k, P k -> Q k) -> dsets P d d' -> dsets Q d d'.
Proof. intros HPQ H. induction H; [apply ds_refl|apply ds_set; auto]. Qed.

Lemma dict_set_keys (k : string) (v : jval) (d : dict) :
  map fst (dict_set k v d) = if existsb (String.eqb k) (map fst d) then map fst d
                             else (map fst d ++ [k])%list.
Proof.
  induction d as [|[k' v'] t IH]; simpl; [reflexivity|].
  destruct (String.eqb k k') eqn:E; simpl; [reflexivity|].
  rewrite IH. destruct (existsb (String.eqb k) (map fst t)); reflexivity.
Qed.

Lemma dict_set_NoDup (k : string) (v : jval) (d : dict) :
  NoDup (map fst d) -> NoDup (map fst (dict_set k v d)).
Proof.
  intros H. rewrite dict_set_keys.
  destruct (existsb (String.eqb k) (map fst d)) eqn:E; [exact H|].
  apply NoDup_app; [exact H|repeat constructor; simpl; tauto|].
  intros a Ha [Ea|[]]. subst a.
  assert (existsb (String.eqb k) (map fst d) = true)
    by (apply existsb_exists; exists k; split; [exact Ha|apply String.eqb_refl]).
  congruence.
Qed.

Lemma dict_set_in_keys (k k' : string) (v : jval) (d : dict) :
  In k' (map fst (dict_set k v d)) -> In k' (map fst d) \/ k' = k.
Proof.
  rewrite dict_set_keys. destruct (existsb (String.eqb k) (map fst d)); [auto|].
  intros H. apply in_app_or in H. destruct H as [H|[<-|[]]]; auto.
Qed.

Lemma dict_set_front2 (k : string) (v : jval) (a b : string * jval) (rest : dict) :
  k <> fst a -> k <> fst b ->
  dict_set k v (a :: b :: rest) = a :: b :: dict_set k v rest.
Proof.
  destruct a as [ka va], b as [kb vb]. simpl. intros Ha Hb.
  apply String.eqb_neq in Ha, Hb. rewrite Ha, Hb. reflexivity.
Qed.

Lemma dsets_NoDup (P : string -> Prop) (d d' : dict) :
  dsets P d d' -> NoDup (map fst d) -> NoDup (map fst d').
Proof. induction 1; auto using dict_set_NoDup. Qed.

Lemma dsets_keys (P : string -> Prop) (d d' : dict) (k : string) :
  dsets P d d' -> In k (map fst d') -> In k (map fst d) \/ P k.
Proof.
  induction 1 as [|d' k' v H IH Hk']; [auto|].
  intros Hin. apply dict_set_in_keys in Hin. destruct Hin as [Hin| ->]; auto.
Qed.

Lemma dsets_get (P : string -> Prop) (d d' : dict) (k : string) :
  dsets P d d' -> ~ P k -> dict_get k d' = dict_get k d.
Proof.
  induction 1 as [|d' k' v H IH Hk']; intros Hn; [reflexivity|].
  rewrite dict_get_set_other; [auto|]. intros ->. contradiction.
Qed.

Lemma dsets_front2 (P : string -> Prop) (a b : string * jval) (d' : dict) :
  ~ P (fst a) -> ~ P (fst b) ->
  dsets P [a; b] d' -> exists rest, d' = a :: b :: rest.
Proof.
  intros Ha Hb H. induction H as [|d' k v H IH Hk]; [exists []; reflexivity|].
  destruct IH as [rest ->]. exists (dict_set k v rest).
  apply dict_set_front2; intros E; subst; contradiction.
Qed.

Lemma dict_get_in_keys (k : string) (d : dict) :
  dict_get k d <> None -> In k (map fst d).
Proof.
  induction d as [|[k' v'] t IH]; simpl; [congruence|].
  destruct (String.eqb k k') eqn:E; [left; symmetry; apply String.eqb_eq, E|].
  intros H. right. apply IH, H.
Qed.

Lemma frame_var_shape (u : upstream) (mk : string) (skip : list string) (run_dt fxx : Z)
    (fd fd' : dict) (vr : string * recipe) :
  In vr VARIABLES -> frame_var u mk skip run_dt fxx fd vr = Ok fd' ->
  dsets (var_key_ok skip fxx) fd fd'.
Proof.
  destruct vr as [var_key rcp]. intros Hin. unfold frame_var.
  destruct (str_in var_key skip) eqn:Hs; [intros E; injection E as <-; apply ds_refl|].
  destruct (Z.eqb fxx 0 && r_accum rcp) eqn:Ha; [intros E; injection E as <-; apply ds_refl|].
  destruct (xarray u run_dt fxx (r_search rcp)) as [| |[|n ns]|[|p ps]]; simpl;
    try (intros E; injection E as <-; apply ds_refl).
  destruct (prep_ok u run_dt fxx var_key); simpl; intros E; injection E as <-;
    [|apply ds_refl].
  apply ds_set; [apply ds_refl|]. exists rcp. auto.
Qed.

Lemma frame_wind_shape (u : upstream) (mk : string) (skip : list string) (run_dt fxx : Z)
    (fd fd' : dict) :
  frame_wind u mk skip run_dt fxx fd = Ok fd' ->
  fd' = fd
  \/ (str_in "wind" skip = false
      /\ fd' = dict_set "feelslike" (jopt (create_plot u mk "feelslike" run_dt fxx))
                 (dict_set "wind" (jopt (create_plot u mk "wind" run_dt fxx)) fd)).
Proof.
  unfold frame_wind. destruct (str_in "wind" skip) eqn:Hs; [intros E; injection E as <-; auto|].
  destruct (merge_mix u run_dt fxx) as [names|e]; simpl;
    [|intros E; injection E as <-; auto].
  destruct (find (has_char "t") names), (find (has_char "u") names),
    (find (has_char "v") names); simpl; try (intros E; injection E as <-; auto).
  destruct (prep_ok u run_dt fxx "wind"); simpl; intros E; injection E as <-; auto.
Qed.

Lemma gen_fold_err_vars (u : upstream) (mk : string) (skip : list string) (run_dt fxx : Z)
    (l : list (string * recipe)) (e : exn) :
  fold_left (vars_step u mk skip run_dt fxx) l (Err e) = Err e.
Proof. induction l as [|x t IH]; simpl; [reflexivity|exact IH]. Qed.

Lemma frame_vars_shape (u : upstream) (mk : string) (skip : list string) (run_dt fxx : Z)
    (l : list (string * recipe)) (d0 fd fd' : dict) :
  (forall vr, In vr l -> In vr VARIABLES) ->
  dsets (var_key_ok skip fxx) d0 fd ->
  fold_left (vars_step u mk skip run_dt fxx) l (Ok fd) = Ok fd' ->
  dsets (var_key_ok skip fxx) d0 fd'.
Proof.
  revert fd. induction l as [|vr t IH]; intros fd Hl H0 H; cbn [fold_left] in H.
  - injection H as <-. exact H0.
  - rewrite vars_step_Ok in H.
    destruct (frame_var u mk skip run_dt fxx fd vr) as [fd1|e] eqn:E.
    + apply (IH fd1); [intros; apply Hl; right; assumption| |exact H].
      eapply dsets_trans; [exact H0|]. eapply frame_var_shape; [apply Hl; left; reflexivity|exact E].
    + rewrite (gen_fold_err_vars u mk skip run_dt fxx t e) in H. discriminate.
Qed.

Lemma var_key_ok_cases (skip : list string) (fxx : Z) (k : string) :
  var_key_ok skip fxx k ->
  str_in k skip = false /\ (k = "precip" \/ k = "snow" -> fxx <> 0)
  /\ In k ["temp"; "gust"; "radar"; "precip"; "snow"].
Proof.
  intros [rcp [Hin [Hs Ha]]]. split; [exact Hs|].
  simpl in Hin.
  destruct Hin as [E|[E|[E|[E|[E|[]]]]]]; injection E as <- <-; cbn in Ha |- *;
    (split; [|tauto]); intros Hk; try (destruct Hk; discriminate);
    intros ->; discriminate.
Qed.

Lemma process_frame_shape (u : upstream) (mk : string) (cfg : config) (run_dt fxx : Z)
    (fr : dict) :
  process_frame u mk cfg run_dt fxx = Ok fr ->
  dsets (fun k => wind_key (get_skip_vars cfg) k \/ var_key_ok (get_skip_vars cfg) fxx k)
    [("fxx", JInt fxx); ("valid", JStr (fmt_HM (run_dt + fxx * US_PER_HOUR)))] fr
  /\ (dict_get "wind" fr = None <-> dict_get "feelslike" fr = None).
Proof.
  unfold process_frame. set (skip := get_skip_vars cfg).
  set (fd0 := [("fxx", JInt fxx); ("valid", JStr (fmt_HM (run_dt + fxx * US_PER_HOUR)))]).
  destruct (make_herbie u run_dt fxx) as [[]|e].
  2:{ intros E. injection E as <-. split; [apply ds_refl|]. split; reflexivity. }
  cbn [bind].
  destruct (frame_wind u mk skip run_dt fxx fd0) as [fd1|e] eqn:Hw; [|discriminate].
  cbn [bind]. intros Hv. rewrite frame_vars_unfold in Hv.
  pose proof (frame_vars_shape u mk skip run_dt fxx VARIABLES fd1 fd1 fr
                (fun vr H => H) (ds_refl _ _) Hv) as Hds.
  assert (Hout : forall k, k = "wind" \/ k = "feelslike" -> dict_get k fr = dict_get k fd1).
  { intros k Hk. apply (dsets_get _ _ _ _ Hds). intros Hok.
    destruct (var_key_ok_cases _ _ _ Hok) as [_ [_ Hin]].
    destruct Hk as [->| ->]; simpl in Hin; repeat (destruct Hin as [Hin|Hin]; [discriminate|]);
      destruct Hin. }
  rewrite (Hout "wind" (or_introl eq_refl)), (Hout "feelslike" (or_intror eq_refl)).
  destruct (frame_wind_shape u mk skip run_dt fxx fd0 fd1 Hw) as [->|[Hs ->]].
  - split; [|split; reflexivity].
    eapply dsets_mono; [|exact Hds]. intros k H. right. exact H.
  - split.
    + eapply dsets_trans; [|eapply dsets_mono; [|exact Hds]; intros k H; right; exact H].
      apply ds_set; [apply ds_set; [apply ds_refl|]|]; left; split; auto.
    + rewrite dict_get_set_same, dict_get_set_other by discriminate.
      rewrite dict_get_set_same. split; discriminate.
Qed.

(** Frames whose key cannot come from any of the blocks of [process_frame]. *)
Lemma frame_key_origin (u : upstream) (mk : string) (cfg : config) (run_dt fxx : Z)
    (fr : dict) (k : string) :
  process_frame u mk cfg run_dt fxx = Ok fr -> dict_get k fr <> None ->
  k = "fxx" \/ k = "valid" \/ wind_key (get_skip_vars cfg) k
  \/ var_key_ok (get_skip_vars cfg) fxx k.
Proof.
  intros H Hk. destruct (process_frame_shape _ _ _ _ _ _ H) as [Hds _].
  apply dict_get_in_keys in Hk.
  destruct (dsets_keys _ _ _ _ Hds Hk) as [Hin|[Hw|Hv]]; auto.
  simpl in Hin. destruct Hin as [<-|[<-|[]]]; auto.
Qed.

(** Extra. [process_frame] never stores a key for a variable the model
    skips: a key listed in [skip_vars] (other than ["fxx"], ["valid"] and
    ["feelslike"]) is absent, skipping ["wind"] also removes
    ["feelslike"], and at forecast hour 0 the accumulated variables
    ["precip"] and ["snow"] are absent. *)
Theorem frame_skipped_keys_absent (u : upstream) (mk : string) (cfg : config)
    (run_dt fxx : Z) (fr : dict) :
  process_frame u mk cfg run_dt fxx = Ok fr ->
  (forall k, str_in k (get_skip_vars cfg) = true ->
     k <> "fxx" -> k <> "valid" -> k <> "feelslike" -> dict_get k fr = None)
  /\ (str_in "wind" (get_skip_vars cfg) = true -> dict_get "feelslike" fr = None)
  /\ (fxx = 0 -> dict_get "precip" fr = None /\ dict_get "snow" fr = None).
Proof.
  intros H.
  assert (Habs : forall k, (k = "fxx" -> False) -> (k = "valid" -> False) ->
                 (wind_key (get_skip_vars cfg) k -> False) ->
                 (var_key_ok (get_skip_vars cfg) fxx k -> False) -> dict_get k fr = None).
  { intros k H1 H2 H3 H4. destruct (dict_get k fr) as [v|] eqn:E; [|reflexivity].
    exfalso. assert (Hn : dict_get k fr <> None) by congruence.
    destruct (frame_key_origin _ _ _ _ _ _ k H Hn) as [?|[?|[?|?]]]; auto. }
  split; [|split].
  - intros k Hs Hf Hv Hfl. apply Habs; auto.
    + intros [[-> | ->] Hw]; [congruence|contradiction].
    + intros Hok. destruct (var_key_ok_cases _ _ _ Hok) as [Hs' _]. congruence.
  - intros Hs. apply Habs; try discriminate.
    + intros [_ Hw]. congruence.
    + intros Hok. destruct (var_key_ok_cases _ _ _ Hok) as [_ [_ Hin]].
      simpl in Hin. repeat (destruct Hin as [Hin|Hin]; [discriminate|]). destruct Hin.
  - intros ->. split; apply Habs; try discriminate;
      try (intros [[E|E] _]; discriminate);
      intros Hok; destruct (var_key_ok_cases _ _ _ Hok) as [_ [Hacc _]]; apply Hacc; auto.
Qed.

(** Extra. Every frame [process_frame] returns is a dict with no key
    twice, whose first two entries are ["fxx"] and ["valid"] (so they
    come first in status.json), and whose keys are among fxx, valid,
    wind, feelslike and the keys of [VARIABLES]. *)
Theorem frame_keys_wellformed (u : upstream) (mk : string) (cfg : config)
    (run_dt fxx : Z) (fr : dict) :
  process_frame u mk cfg run_dt fxx = Ok fr ->
  NoDup (map fst fr)
  /\ (exists rest, fr = ("fxx", JInt fxx)
                        :: ("valid", JStr (fmt_HM (run_dt + fxx * US_PER_HOUR))) :: rest)
  /\ forall k, In k (map fst fr) ->
       In k ["fxx"; "valid"; "wind"; "feelslike"; "temp"; "gust"; "radar"; "precip"; "snow"].
Proof.
  intros H. destruct (process_frame_shape _ _ _ _ _ _ H) as [Hds _].
  split; [|split].
  - eapply dsets_NoDup; [exact Hds|]. simpl. repeat constructor; simpl; intuition discriminate.
  - eapply dsets_front2; [| |exact Hds]; simpl.
    + intros [[[E|E] _]|Hok]; [discriminate|discriminate|].
      destruct (var_key_ok_cases _ _ _ Hok) as [_ [_ Hin]]. simpl in Hin.
      repeat (destruct Hin as [Hin|Hin]; [discriminate|]). destruct Hin.
    + intros [[[E|E] _]|Hok]; [discriminate|discriminate|].
      destruct (var_key_ok_cases _ _ _ Hok) as [_ [_ Hin]]. simpl in Hin.
      repeat (destruct Hin as [Hin|Hin]; [discriminate|]). destruct Hin.
  - intros k Hk. destruct (dsets_keys _ _ _ _ Hds Hk) as [Hin|[[Hw _]|Hok]].
    + simpl in Hin |- *. tauto.
    + destruct Hw as [-> | ->]; simpl; tauto.
    + destruct (var_key_ok_cases _ _ _ Hok) as [_ [_ Hin]]. simpl in Hin |- *. tauto.
Qed.

(** Extra. In every frame, ["wind"] and ["feelslike"] are present
    together or absent together: the combined block sets both or
    neither, and no other block touches them. *)
Theorem frame_wind_feelslike_together (u : upstream) (mk : string) (cfg : config)
    (run_dt fxx : Z) (fr : dict) :
  process_frame u mk cfg run_dt fxx = Ok fr ->
  (dict_get "wind" fr = None <-> dict_get "feelslike" fr = None).
Proof. intros H. exact (proj2 (process_frame_shape _ _ _ _ _ _ H)). Qed.

(* ------------------------------------------------------------------ *)
(** ** Times *)

Lemma US_PER_HOUR_pos : 0 < US_PER_HOUR.
Proof. unfold US_PER_HOUR, US_PER_MINUTE. lia. Qed.

(** Extra. The run time [get_run_time] computes lies on a whole hour and
    never after [now]: for hourly models it is between two hours and one
    hour before [now] (the upload buffer); for a cycle of [c > 1] hours
    it is a cycle start of the same UTC day, at most [now] and less than
    [c] hours before it; for a cycle of 0 hours it raises
    [ZeroDivisionError]. *)
Theorem run_time_anchor_bounds (cfg : config) (now : Z) :
  let c := get_cycle_hrs cfg in
  (c = 1 -> exists a, get_run_time cfg now = Ok a
             /\ now - 2 * US_PER_HOUR < a <= now - US_PER_HOUR /\ a mod US_PER_HOUR = 0)
  /\ (1 < c -> exists a, get_run_time cfg now = Ok a
             /\ dt_day_start now <= a <= now /\ now < a + c * US_PER_HOUR
             /\ a mod US_PER_HOUR = 0 /\ dt_hour a mod c = 0)
  /\ (c = 0 -> get_run_time cfg now = Err ZeroDivisionError).
Proof.
  intros c. pose proof US_PER_HOUR_pos as HH.
  pose proof (Z.div_mod now US_PER_HOUR ltac:(lia)) as Hq.
  pose proof (Z.mod_pos_bound now US_PER_HOUR HH) as Hr.
  set (q := now / US_PER_HOUR) in *. set (r := now mod US_PER_HOUR) in *.
  split; [|split].
  - intros Hc. rewrite (get_run_time_anchor cfg now ltac:(fold c; lia)). fold c.
    rewrite Hc. simpl. eexists; split; [reflexivity|]. unfold dt_trunc_hour. fold q.
    split; [unfold US_PER_HOUR, US_PER_MINUTE in *; lia|].
    replace (q * US_PER_HOUR - US_PER_HOUR) with ((q - 1) * US_PER_HOUR) by ring.
    apply Z.mod_mul. lia.
  - intros Hc. rewrite (get_run_time_anchor cfg now ltac:(fold c; lia)). fold c.
    destruct (Z.eqb_spec c 1) as [E|_]; [lia|].
    eexists; split; [reflexivity|].
    assert (Hday : dt_day_start now = q / 24 * 24 * US_PER_HOUR).
    { unfold dt_day_start, US_PER_DAY. rewrite Z.mul_comm with (n := 24).
      rewrite <- Z.div_div by lia. fold q. ring. }
    assert (Hhr : dt_hour now = q mod 24) by reflexivity.
    rewrite Hday, Hhr.
    pose proof (Z.div_mod q 24 ltac:(lia)) as Hq24.
    pose proof (Z.mod_pos_bound q 24 ltac:(lia)) as Hh.
    set (h := q mod 24) in *. set (d := q / 24) in *.
    pose proof (Z.div_mod h c ltac:(lia)) as Hhc.
    pose proof (Z.mod_pos_bound h c ltac:(lia)) as Hm.
    assert (Hg0 : 0 <= h / c) by (apply Z.div_pos; lia).
    set (g := h / c) in *.
    assert (Hg : g * c <= h) by lia.
    assert (Hgc : h < g * c + c) by lia.
    assert (P0 : 0 <= g * c) by (apply Z.mul_nonneg_nonneg; lia).
    assert (P1 : 0 <= g * c * US_PER_HOUR) by (apply Z.mul_nonneg_nonneg; lia).
    assert (P2 : g * c * US_PER_HOUR <= h * US_PER_HOUR)
      by (apply Z.mul_le_mono_nonneg_r; lia).
    assert (P3 : (h + 1) * US_PER_HOUR <= (g * c + c) * US_PER_HOUR)
      by (apply Z.mul_le_mono_nonneg_r; lia).
    rewrite Hq24 in Hq.
    split; [|split; [|split]].
    + split; [lia|]. lia.
    + lia.
    + replace (d * 24 * US_PER_HOUR + g * c * US_PER_HOUR)
        with ((d * 24 + g * c) * US_PER_HOUR) by ring.
      apply Z.mod_mul. lia.
    + unfold dt_hour.
      replace (d * 24 * US_PER_HOUR + g * c * US_PER_HOUR)
        with ((g * c + d * 24) * US_PER_HOUR) by ring.
      rewrite Z.div_mul by lia. rewrite Z.mod_add by lia.
      rewrite (Z.mod_small (g * c) 24) by lia. apply Z.mod_mul. lia.
  - intros Hc. unfold get_run_time. fold c. rewrite Hc. reflexivity.
Qed.

Lemma fmt_HM_day (t k : Z) : fmt_HM (t + k * US_PER_DAY) = fmt_HM t.
Proof.
  unfold fmt_HM, dt_hour, dt_minute, US_PER_DAY, US_PER_HOUR.
  replace (t + k * (24 * (60 * US_PER_MINUTE))) with (t + (k * 24) * (60 * US_PER_MINUTE)) by ring.
  rewrite Z.div_add by (unfold US_PER_MINUTE; lia). rewrite Z.mod_add by lia.
  replace (t + k * 24 * (60 * US_PER_MINUTE)) with (t + (k * 1440) * US_PER_MINUTE) by ring.
  rewrite Z.div_add by (unfold US_PER_MINUTE; lia).
  replace (t / US_PER_MINUTE + k * 1440) with (t / US_PER_MINUTE + (k * 24) * 60) by ring.
  rewrite Z.mod_add by lia. reflexivity.
Qed.

(** Extra. The ["valid"] label of a frame holds only the hour and the
    minute of the valid time: two frames of one run whose forecast hours
    differ by a whole number of days carry the same label. *)
Theorem frame_valid_label_daily (u : upstream) (mk : string) (cfg : config)
    (run_dt fxx k : Z) (fr fr' : dict) :
  process_frame u mk cfg run_dt fxx = Ok fr ->
  process_frame u mk cfg run_dt (fxx + 24 * k) = Ok fr' ->
  dict_get "valid" fr' = dict_get "valid" fr.
Proof.
  intros H H'.
  destruct (process_frame_ok u mk cfg run_dt fxx) as [f1 [E1 [_ V1]]].
  destruct (process_frame_ok u mk cfg run_dt (fxx + 24 * k)) as [f2 [E2 [_ V2]]].
  rewrite H in E1. injection E1 as <-. rewrite H' in E2. injection E2 as <-.
  rewrite V1, V2. f_equal. f_equal.
  replace (run_dt + (fxx + 24 * k) * US_PER_HOUR)
    with (run_dt + fxx * US_PER_HOUR + k * US_PER_DAY) by (unfold US_PER_DAY; ring).
  apply fmt_HM_day.
Qed.

(* ------------------------------------------------------------------ *)
(** ** Decimal formatting decodes back *)

Lemma string_append_assoc (a b c : string) :
  ((a ++ b) ++ c)%string = (a ++ (b ++ c))%string.
Proof. induction a as [|x a IH]; simpl; [reflexivity|]. rewrite IH. reflexivity. Qed.

Lemma digits_aux_app (f : nat) (n : Z) (acc : string) :
  digits_aux f n acc = (digits_aux f n "" ++ acc)%string.
Proof.
  revert n acc. induction f as [|f IH]; intros n acc; [reflexivity|].
  cbn [digits_aux]. destruct (n <? 10); [reflexivity|].
  rewrite IH, (IH (n / 10) (String (digit_char (n mod 10)) "")).
  rewrite string_append_assoc. reflexivity.
Qed.


Lemma parse_aux_app (s1 s2 : string) (a : Z) :
  parse_aux (s1 ++ s2) a = parse_aux s2 (parse_aux s1 a).
Proof. revert a. induction s1 as [|c s IH]; intros a; simpl; [reflexivity|apply IH]. Qed.

Lemma digit_char_val (d : Z) :
  0 <= d < 10 -> Z.of_nat (nat_of_ascii (digit_char d)) - 48 = d.
Proof.
  intros Hd. unfold digit_char. rewrite nat_ascii_embedding by lia. lia.
Qed.

Lemma parse_digits_aux (f : nat) (n : Z) :
  0 <= n < 10 ^ Z.of_nat f -> parse_digits (digits_aux f n "") = n.
Proof.
  revert n. induction f as [|f IH]; intros n Hn.
  - change (10 ^ Z.of_nat 0) with 1 in Hn. assert (n = 0) as -> by lia. reflexivity.
  - cbn [digits_aux].
    pose proof (Z.mod_pos_bound n 10 ltac:(lia)) as Hm.
    destruct (Z.ltb_spec n 10) as [Hlt|Hge].
    + unfold parse_digits. cbn [parse_aux]. rewrite digit_char_val by lia.
      rewrite Z.mod_small by lia. reflexivity.
    + rewrite digits_aux_app. unfold parse_digits. rewrite parse_aux_app.
      fold (parse_digits (digits_aux f (n / 10) "")). rewrite IH.
      * cbn [parse_aux]. rewrite digit_char_val by lia. pose proof (Z.div_mod n 10). lia.
      * rewrite Nat2Z.inj_succ, Z.pow_succ_r in Hn by lia.
        split; [apply Z.div_pos; lia|]. apply Z.div_lt_upper_bound; lia.
Qed.

Lemma parse_digits_digits (n : Z) : 0 <= n -> parse_digits (digits n) = n.
Proof.
  intros Hn. unfold digits. apply parse_digits_aux. split; [exact Hn|].
  rewrite Nat2Z.inj_succ, Z2Nat.id by apply Z.log2_nonneg.
  destruct (Z.eq_dec n 0) as [->|Hne]; [simpl; lia|].
  destruct (Z.log2_spec n ltac:(lia)) as [_ Hlt].
  eapply Z.lt_le_trans; [exact Hlt|].
  apply Z.pow_le_mono_l. split; [lia|lia].
Qed.

Lemma parse_aux_zeros (k : nat) : parse_aux (zeros k) 0 = 0.
Proof. induction k as [|k IH]; simpl; [reflexivity|exact IH]. Qed.

(** [pad] decodes back for every non-negative int. *)
Lemma parse_digits_pad (w : nat) (n : Z) : 0 <= n -> parse_digits (pad w n) = n.
Proof.
  intros Hn. unfold pad. destruct (Z.ltb_spec n 0) as [|_]; [lia|].
  unfold parse_digits. rewrite parse_aux_app, parse_aux_zeros.
  apply parse_digits_digits, Hn.
Qed.

Lemma string_app_cancel_l (p s1 s2 : string) :
  (p ++ s1)%string = (p ++ s2)%string -> s1 = s2.
Proof. induction p as [|c p IH]; simpl; [auto|]. intros H. injection H. exact IH. Qed.

Lemma list_ascii_of_string_app (s1 s2 : string) :
  list_ascii_of_string (s1 ++ s2) = (list_ascii_of_string s1 ++ list_ascii_of_string s2)%list.
Proof. induction s1 as [|c s IH]; simpl; [reflexivity|]. rewrite IH. reflexivity. Qed.

Lemma string_app_cancel_r (s1 s2 t : string) :
  (s1 ++ t)%string = (s2 ++ t)%string -> s1 = s2.
Proof.
  intros H. apply (f_equal list_ascii_of_string) in H.
  rewrite !list_ascii_of_string_app in H. apply app_inv_tail in H.
  rewrite <- (string_of_list_ascii_of_string s1), <- (string_of_list_ascii_of_string s2), H.
  reflexivity.
Qed.

(** Extra. The path [create_plot] returns depends on the model key, the
    variable key and the forecast hour only, not on the run: for
    non-negative forecast hours two paths of one model and variable are
    equal exactly when the forecast hours are, so the images of distinct
    hours never share a file, and a later run writes over the images of
    the earlier one. *)
Theorem plot_path_by_hour (u u' : upstream) (mk var_key : string) (run_dt run_dt' fxx fxx' : Z)
    (p p' : string) :
  0 <= fxx -> 0 <= fxx' ->
  create_plot u mk var_key run_dt fxx = Some p ->
  create_plot u' mk var_key run_dt' fxx' = Some p' ->
  (p = p' <-> fxx = fxx').
Proof.
  intros H0 H0' H H'. unfold create_plot in H, H'.
  destruct (render_ok u run_dt fxx var_key); [|discriminate].
  destruct (render_ok u' run_dt' fxx' var_key); [|discriminate].
  injection H as <-. injection H' as <-. split.
  - intros E.
    injection E as E.
    apply string_app_cancel_l in E. injection E as E.
    apply string_app_cancel_l in E. injection E as E.
    apply string_app_cancel_r in E.
    apply (f_equal parse_digits) in E. rewrite !parse_digits_pad in E by assumption.
    exact E.
  - intros ->. reflexivity.
Qed.

(* ------------------------------------------------------------------ *)
(** ** process_model on a new run *)

Lemma Permutation_map_JInt (a b : list Z) :
  Permutation (map JInt a) (map JInt b) -> Permutation a b.
Proof.
  intros H.
  apply (Permutation_map (fun v => match v with JInt z => z | _ => 0 end)) in H.
  rewrite !map_map in H. simpl in H. rewrite !map_id in H. exact H.
Qed.

Lemma sort_frames_int_ok (fs : list dict) (zs : list Z) :
  mapM fr_fxx fs = Ok (map JInt zs) -> exists fs', sort_frames fs = Ok fs'.
Proof.
  intros Hm. unfold sort_frames. rewrite Hm. cbn [bind].
  destruct (Nat.ltb (List.length fs) 2); [eauto|].
  rewrite ints_of_map. eauto.
Qed.

(** Extra. On a new run (no record for the model, or a record of another
    run) with a positive step, [process_model] returns a record and never
    raises, whatever the upstream data: its frames carry exactly the
    expected hours 0, step, ..., up to max_hours, each once and in
    ascending order, whether or not their data could be fetched. *)
Theorem new_run_frames_exact (u : upstream) (name : string) (cfg : config) (st : status)
    (now base valid_dt : Z) :
  (existing_of st name = None
   \/ exists rr, existing_of st name = Some rr /\ run_time rr <> fmt_run valid_dt) ->
  get_run_time cfg now = Ok base ->
  discover u cfg base = Some valid_dt ->
  0 < get_step cfg ->
  exists r zs, process_model u name cfg st now = Ok (Some r)
    /\ run_time r = fmt_run valid_dt /\ display_name r = c_display_name cfg
    /\ mapM fr_fxx (frames r) = Ok (map JInt zs)
    /\ Sorted Z.lt zs
    /\ forall x, In x zs <-> 0 <= x <= get_max_hours cfg /\ (get_step cfg | x).
Proof.
  intros Hex Hrt Hd Hs.
  destruct (py_range 0 (get_max_hours cfg + 1) (get_step cfg)) as [hs|e] eqn:Hr;
    [|rewrite py_range_pos in Hr by exact Hs; discriminate].
  pose proof (plan_case_a u name cfg st valid_dt hs Hex Hr) as Hp.
  set (out := mk_rr (fmt_run valid_dt) (c_display_name cfg) []) in Hp.
  assert (Hfresh : forall x, In x hs -> in_keys [] x = false) by reflexivity.
  destruct (gen_fold_fresh u name cfg valid_dt [] hs [] [] Hfresh eq_refl) as [fs [Ef Hfs]].
  simpl in Hfs.
  destruct (sort_frames_int_ok fs hs Hfs) as [fs' Hsf].
  assert (Hg : generate u name cfg valid_dt out hs [] = Ok (mk_rr (fmt_run valid_dt)
                 (c_display_name cfg) fs'))
    by (unfold generate; simpl; rewrite Ef; simpl; rewrite Hsf; reflexivity).
  destruct (generate_fresh u name cfg valid_dt out hs [] [] _ Hfresh eq_refl Hg)
    as [ks [Hks [Hperm [_ [_ Hsort]]]]].
  destruct (Hsort [] eq_refl) as [zs [-> Hle]].
  simpl in Hperm. apply Permutation_map_JInt in Hperm.
  exists (mk_rr (fmt_run valid_dt) (c_display_name cfg) fs'), zs.
  split; [unfold process_model; rewrite Hrt; simpl; rewrite Hd, Hp; simpl; rewrite Hg;
          reflexivity|].
  split; [reflexivity|]. split; [reflexivity|]. split; [exact Hks|].
  pose proof (py_range_NoDup _ _ _ _ Hr) as Hnd.
  split.
  - apply sorted_le_NoDup_lt; [exact Hle|]. exact (Permutation_NoDup Hperm Hnd).
  - intros x. split.
    + intros Hx. apply (Permutation_in _ (Permutation_sym Hperm)) in Hx.
      apply (in_py_range _ _ hs Hs Hr) in Hx. destruct Hx as [H1 H2]. split; [lia|exact H2].
    + intros [H1 H2]. apply (Permutation_in _ Hperm).
      apply (in_py_range _ _ hs Hs Hr). split; [lia|exact H2].
Qed.

(* ------------------------------------------------------------------ *)
(** ** process_model on the stored record of the same run *)

Lemma mapM_fr_fxx_missing (l : list dict) :
  (exists f, In f l /\ dict_get "fxx" f = None) -> mapM fr_fxx l = Err KeyError.
Proof.
  induction l as [|f t IH]; intros [g [Hg Hn]]; [destruct Hg|].
  cbn [mapM]. destruct Hg as [<-|Hg].
  - unfold fr_fxx at 1. rewrite Hn. reflexivity.
  - unfold fr_fxx at 1. destruct (dict_get "fxx" f); cbn [bind]; [|reflexivity].
    rewrite IH by eauto. reflexivity.
Qed.

Lemma py_range_ok (start stop step : Z) :
  step <> 0 -> exists hs, py_range start stop step = Ok hs.
Proof.
  intros Hs. unfold py_range. destruct (Z.eqb_spec step 0); [contradiction|eauto].
Qed.

Lemma ints_of_app_none (ks rest : list jval) :
  ints_of ks = None -> ints_of (ks ++ rest)%list = None.
Proof.
  induction ks as [|k t IH]; simpl; [discriminate|].
  destruct k as [z| |]; try reflexivity.
  destruct (ints_of t) eqn:E; [discriminate|]. rewrite IH by reflexivity. reflexivity.
Qed.

Lemma ints_of_none (ks : list jval) (k : jval) :
  In k ks -> (forall z, k <> JInt z) -> ints_of ks = None.
Proof.
  induction ks as [|k' t IH]; intros Hin Hk; [destruct Hin|].
  destruct Hin as [E|Hin].
  - subst k'. destruct k as [z| |]; [destruct (Hk z eq_refl)|reflexivity|reflexivity].
  - simpl. destruct k' as [z| |]; try reflexivity. rewrite IH by assumption. reflexivity.
Qed.

Lemma strs_of_int_none (ks : list jval) (z : Z) :
  In (JInt z) ks -> strs_of ks = None.
Proof.
  induction ks as [|k t IH]; intros Hin; [destruct Hin|].
  destruct Hin as [E|Hin]; [subst k; reflexivity|].
  simpl. destruct k as [| s |]; try reflexivity. rewrite IH by exact Hin. reflexivity.
Qed.

(** Extra. On the stored record of the run it locks on, [process_model]
    raises [KeyError] as soon as one stored frame has no ["fxx"] key (the
    index [{f['fxx']: f ...}] is built before any hour is probed). *)
Theorem same_run_missing_fxx_raises (u : upstream) (name : string) (cfg : config)
    (st : status) (now base valid_dt : Z) (rr : run_record) :
  existing_of st name = Some rr ->
  run_time rr = fmt_run valid_dt ->
  (exists f, In f (frames rr) /\ dict_get "fxx" f = None) ->
  get_run_time cfg now = Ok base ->
  discover u cfg base = Some valid_dt ->
  get_step cfg <> 0 ->
  process_model u name cfg st now = Err KeyError.
Proof.
  intros Hex Hrun Hmiss Hrt Hd Hs.
  destruct (py_range_ok 0 (get_max_hours cfg + 1) (get_step cfg) Hs) as [hs Hr].
  unfold process_model. rewrite Hrt. cbn [bind]. rewrite Hd.
  unfold plan. rewrite Hex, Hrun, fmt_run_eqb_refl, Hr. cbn [bind negb].
  rewrite (mapM_fr_fxx_missing _ Hmiss). reflexivity.
Qed.

(** Extra. On the stored record of the run it locks on, when every stored
    frame has an ["fxx"] but one of them is not an int (a string or
    [null]): if the scan queues nothing, the record is returned with its
    frames as stored; if it queues at least one hour, the final sort
    compares that key with an int and [process_model] raises
    [TypeError]. *)
Theorem same_run_non_int_fxx (u : upstream) (name : string) (cfg : config)
    (st : status) (now base valid_dt : Z) (rr : run_record) (keys : list jval)
    (hs : list Z) :
  existing_of st name = Some rr ->
  run_time rr = fmt_run valid_dt ->
  mapM fr_fxx (frames rr) = Ok keys ->
  (exists k, In k keys /\ forall z, k <> JInt z) ->
  get_run_time cfg now = Ok base ->
  discover u cfg base = Some valid_dt ->
  py_range 0 (get_max_hours cfg + 1) (get_step cfg) = Ok hs ->
  (case_b_schedule (probe_available u valid_dt) keys hs = [] ->
   process_model u name cfg st now
   = Ok (Some (mk_rr (fmt_run valid_dt) (c_display_name cfg) (frames rr))))
  /\ (case_b_schedule (probe_available u valid_dt) keys hs <> [] ->
      process_model u name cfg st now = Err TypeError).
Proof.
  intros Hex Hrun Hk [k [Hkin Hknot]] Hrt Hd Hr.
  pose proof (plan_case_b u name cfg st valid_dt rr keys hs Hex Hrun Hk Hr) as Hp.
  unfold process_model. rewrite Hrt. cbn [bind]. rewrite Hd, Hp. cbn [bind].
  split; intros Hsched.
  - rewrite Hsched. reflexivity.
  - destruct (case_b_schedule (probe_available u valid_dt) keys hs) as [|x tp] eqn:Hs;
      [contradiction|].
    set (out := mk_rr (fmt_run valid_dt) (c_display_name cfg) (frames rr)).
    assert (Hpt : plan u name cfg st valid_dt = Ok (Todo out (x :: tp) keys))
      by (rewrite Hp; reflexivity).
    destruct (plan_todo_fresh _ _ _ _ _ _ _ _ Hpt) as [Hk0 [Hfresh _]].
    destruct (gen_fold_fresh u name cfg valid_dt keys (x :: tp) (frames out) keys Hfresh Hk0)
      as [fs [Ef Hfs]].
    assert (Hsort : sort_frames fs = Err TypeError).
    { unfold sort_frames. rewrite Hfs. cbn [bind].
      apply mapM_length in Hfs. rewrite length_app in Hfs.
      assert (Hlen : (2 <= List.length fs)%nat).
      { rewrite <- Hfs. destruct keys as [|k0 ks0]; [destruct Hkin|]. simpl. lia. }
      destruct (Nat.ltb_spec (List.length fs) 2) as [Hl|_]; [lia|].
      rewrite (ints_of_app_none keys _ (ints_of_none keys k Hkin Hknot)).
      rewrite (strs_of_int_none _ x); [reflexivity|].
      apply in_or_app. right. left. reflexivity. }
    unfold generate. rewrite Ef. cbn [bind]. rewrite Hsort. reflexivity.
Qed.

(* ------------------------------------------------------------------ *)
(** ** Degenerate steps *)

(** Extra. A model whose step is 0 makes [range(0, max_hours + 1, 0)]
    raise [ValueError] once a run is locked, on a new run and on the same
    run alike. *)
Theorem zero_step_raises (u : upstream) (name : string) (cfg : config) (st : status)
    (now base valid_dt : Z) :
  get_step cfg = 0 ->
  get_run_time cfg now = Ok base ->
  discover u cfg base = Some valid_dt ->
  process_model u name cfg st now = Err ValueError.
Proof.
  intros Hs Hrt Hd. unfold process_model. rewrite Hrt. cbn [bind]. rewrite Hd.
  unfold plan, py_range. rewrite Hs. reflexivity.
Qed.

Lemma py_range_negative (stop step : Z) :
  step < 0 -> 0 <= stop -> py_range 0 stop step = Ok [].
Proof.
  intros Hs Hstop. unfold py_range.
  destruct (Z.eqb_spec step 0); [lia|]. destruct (Z.ltb_spec 0 step); [lia|].
  assert (Hq : (0 - stop - step - 1) / - step < 1)
    by (apply Z.div_lt_upper_bound; lia).
  replace (Z.to_nat ((0 - stop - step - 1) / - step)) with 0%nat by lia.
  reflexivity.
Qed.

(** Extra. A model whose step is negative (and max_hours at least 0) has
    no expected hour: once a run is locked, nothing is rendered; a new run
    gives a record with no frames, and the stored record of the same run
    (with an ["fxx"] in every frame) is returned with its frames as
    stored. *)
Theorem negative_step_renders_nothing (u : upstream) (name : string) (cfg : config)
    (st : status) (now base valid_dt : Z) :
  get_step cfg < 0 -> 0 <= get_max_hours cfg ->
  get_run_time cfg now = Ok base ->
  discover u cfg base = Some valid_dt ->
  ((existing_of st name = None
    \/ exists rr, existing_of st name = Some rr /\ run_time rr <> fmt_run valid_dt) ->
   process_model u name cfg st now
   = Ok (Some (mk_rr (fmt_run valid_dt) (c_display_name cfg) [])))
  /\ (forall rr keys, existing_of st name = Some rr -> run_time rr = fmt_run valid_dt ->
      mapM fr_fxx (frames rr) = Ok keys ->
      process_model u name cfg st now
      = Ok (Some (mk_rr (fmt_run valid_dt) (c_display_name cfg) (frames rr)))).
Proof.
  intros Hs Hm Hrt Hd.
  pose proof (py_range_negative (get_max_hours cfg + 1) (get_step cfg) Hs ltac:(lia)) as Hr.
  split.
  - intros Hex. unfold process_model. rewrite Hrt. cbn [bind]. rewrite Hd.
    rewrite (plan_case_a u name cfg st valid_dt [] Hex Hr). cbn [bind].
    unfold generate. reflexivity.
  - intros rr keys Hex Hrun Hk. unfold process_model. rewrite Hrt. cbn [bind]. rewrite Hd.
    rewrite (plan_case_b u name cfg st valid_dt rr keys [] Hex Hrun Hk Hr). reflexivity.
Qed.

(* ------------------------------------------------------------------ *)
(** ** The entry point *)

Lemma main_loop_err (u : upstream) (st : status) (now : Z) (e : exn)
    (models : list (string * config)) :
  main_loop u st now (Err e) models = Err e.
Proof. unfold main_loop. induction models as [|nc t IH]; simpl; [reflexivity|exact IH]. Qed.

Lemma main_loop_cons (u : upstream) (st : status) (now : Z) (acc : status)
    (nc : string * config) (models : list (string * config)) :
  main_loop u st now (Ok acc) (nc :: models)
  = main_loop u st now
      (res <- process_model u (fst nc) (snd nc) st now ;; Ok (status_set (fst nc) res acc))
      models.
Proof. reflexivity. Qed.

Lemma status_set_fresh (n : string) (r : option run_record) (acc : status) :
  ~ In n (map fst acc) -> status_set n r acc = (acc ++ [(n, r)])%list.
Proof.
  induction acc as [|[n' r'] t IH]; intros Hn; simpl; [reflexivity|].
  destruct (String.eqb_spec n n') as [->|_]; [destruct Hn; left; reflexivity|].
  rewrite IH; [reflexivity|]. intros H. apply Hn. right. exact H.
Qed.

Lemma main_loop_some_err (u : upstream) (st : status) (now : Z)
    (models : list (string * config)) (acc : result status) (name : string) (cfg : config)
    (e : exn) :
  In (name, cfg) models -> process_model u name cfg st now = Err e ->
  exists e', main_loop u st now acc models = Err e'.
Proof.
  revert acc. induction models as [|nc t IH]; intros acc Hin He; [destruct Hin|].
  destruct acc as [a|e0]; [|rewrite main_loop_err; eauto].
  rewrite main_loop_cons. destruct Hin as [E|Hin]; [subst nc|].
  - simpl. rewrite He. cbn [bind]. rewrite main_loop_err. eauto.
  - apply IH; assumption.
Qed.

Lemma main_loop_report (u : upstream) (st : status) (now : Z)
    (models : list (string * config)) (acc rep : status) :
  NoDup (map fst acc ++ map fst models)%list ->
  (main_loop u st now (Ok acc) models = Ok rep
   <-> exists rest, rep = (acc ++ rest)%list
       /\ Forall2 (fun nc e => fst e = fst nc
                               /\ process_model u (fst nc) (snd nc) st now = Ok (snd e))
                  models rest).
Proof.
  revert acc. induction models as [|nc t IH]; intros acc Hnd.
  - unfold main_loop. simpl. split.
    + intros H. injection H as <-. exists []. rewrite app_nil_r. split; constructor.
    + intros [rest [-> Hf]]. inversion Hf. rewrite app_nil_r. reflexivity.
  - simpl in Hnd.
    assert (Hfresh : ~ In (fst nc) (map fst acc)).
    { intros H. apply NoDup_remove_2 in Hnd. apply Hnd. apply in_or_app. left. exact H. }
    rewrite main_loop_cons.
    destruct (process_model u (fst nc) (snd nc) st now) as [res|e] eqn:Hp; cbn [bind].
    + rewrite status_set_fresh by exact Hfresh.
      rewrite IH.
      * split.
        -- intros [rest [-> Hf]]. exists ((fst nc, res) :: rest).
           rewrite <- app_assoc. split; [reflexivity|]. constructor; [|exact Hf].
           split; [reflexivity|exact Hp].
        -- intros [rest [-> Hf]]. inversion Hf as [|? [n r] ? rest' [Hn Hr] Hf']; subst.
           exists rest'. rewrite <- app_assoc. simpl in Hn. simpl in Hr.
           rewrite Hp in Hr. injection Hr as ->. rewrite <- Hn.
           destruct nc. split; [reflexivity|exact Hf'].
      * rewrite map_app, <- app_assoc. exact Hnd.
    + rewrite main_loop_err. split; [discriminate|].
      intros [rest [_ Hf]]. inversion Hf as [|? ? ? ? [_ Hr] _]; subst. congruence.
Qed.

(** Extra. When the model names are distinct (as the keys of [MODELS]
    are), the loop of [__main__] succeeds with the report [rep] exactly
    when every model's [process_model] returns: [rep] then lists the
    models in their order, each name with what its call returned ([None]
    for a model with no run found). *)
Theorem main_report_in_order (u : upstream) (st : status) (now : Z)
    (models : list (string * config)) (rep : status) :
  NoDup (map fst models) ->
  (main_loop u st now (Ok []) models = Ok rep
   <-> Forall2 (fun nc e => fst e = fst nc
                            /\ process_model u (fst nc) (snd nc) st now = Ok (snd e))
               models rep).
Proof.
  intros Hnd. rewrite (main_loop_report u st now models [] rep Hnd). simpl.
  split; [intros [rest [-> Hf]]; exact Hf|intros Hf; exists rep; split; [reflexivity|exact Hf]].
Qed.

(** Extra. An exception escaping [process_model] for any one model stops
    [__main__] before status.json is opened: status.json is neither
    truncated nor written, and keeps the content it had before the
    invocation (whatever images [create_plot] saved under site/images
    before the exception stay, and are outside this trace). *)
Theorem model_error_keeps_status (u : upstream) (st : status) (now : Z)
    (models : list (string * config)) (encode : status -> list string)
    (name : string) (cfg : config) (e : exn) (fs0 : fs_state) :
  In (name, cfg) models ->
  process_model u name cfg st now = Err e ->
  (forall a, In a (main_trace u st now models encode) ->
             a <> OpenWrite STATUS_PATH /\ forall c, a <> WriteChunk STATUS_PATH c)
  /\ fs_get STATUS_PATH (fs_run (main_trace u st now models encode) fs0)
     = fs_get STATUS_PATH fs0.
Proof.
  intros Hin He.
  destruct (main_loop_some_err u st now models (Ok []) name cfg e Hin He) as [e' E].
  assert (Ht : main_trace u st now models encode = [MakeDirs "site/images"])
    by (unfold main_trace; rewrite E; reflexivity).
  rewrite Ht. split; [|reflexivity].
  intros a [<-|[]]. split; [discriminate|intros c; discriminate].
Qed.

(** Extra. An interrupted write of status.json is not recovered from: if
    the previous invocation stopped right after [open(path, 'w')]
    truncated the file, the next [load_existing_status] finds an empty
    file, [json.load] raises on it, and every model starts from no
    stored record, that is from a new run. *)
Theorem truncated_status_reloads_empty (u : upstream) (st : status) (now : Z)
    (models : list (string * config)) (encode : status -> list string)
    (decode : string -> option status) (fs0 : fs_state) (rep : status) :
  main_loop u st now (Ok []) models = Ok rep ->
  decode "" = None ->
  load_existing_status decode (fs_run (firstn 2 (main_trace u st now models encode)) fs0) = []
  /\ forall name, existing_of
       (load_existing_status decode (fs_run (firstn 2 (main_trace u st now models encode)) fs0))
       name = None.
Proof.
  intros Hm Hd.
  assert (H : load_existing_status decode
                (fs_run (firstn 2 (main_trace u st now models encode)) fs0) = []).
  { unfold main_trace. rewrite Hm. simpl. unfold load_existing_status.
    rewrite fs_get_put_same, Hd. reflexivity. }
  split; [exact H|]. intros name. rewrite H. reflexivity.
Qed.

(* ------------------------------------------------------------------ *)
(** ** The legacy script *)

Module LegacyFacts.
Import Legacy.

Lemma find_map_seq {A} (p : A -> bool) (f : nat -> A) (s n : nat) (x : A) :
  find p (map f (seq s n)) = Some x
  <-> exists i, (s <= i < s + n)%nat /\ x = f i /\ p (f i) = true
      /\ forall j, (s <= j < i)%nat -> p (f j) = false.
Proof.
  revert s. induction n as [|n IH]; intros s; simpl.
  - split; [discriminate|]. intros [i [Hi _]]. lia.
  - destruct (p (f s)) eqn:E.
    + split.
      * intros H. injection H as <-. exists s.
        split; [lia|]. split; [reflexivity|]. split; [exact E|]. intros j Hj. lia.
      * intros [i [Hi [-> [Hp Hj]]]].
        destruct (Nat.eq_dec i s) as [->|Hne]; [reflexivity|].
        rewrite (Hj s) in E by lia. discriminate.
    + rewrite IH. split.
      * intros [i [Hi [-> [Hp Hj]]]]. exists i.
        split; [lia|]. split; [reflexivity|]. split; [exact Hp|].
        intros j Hj'. destruct (Nat.eq_dec j s) as [->|Hne]; [exact E|]. apply Hj. lia.
      * intros [i [Hi [-> [Hp Hj]]]].
        destruct (Nat.eq_dec i s) as [->|Hne]; [congruence|].
        exists i. split; [lia|]. split; [reflexivity|]. split; [exact Hp|].
        intros j Hj'. apply Hj. lia.
Qed.

Lemma find_map_seq_none {A} (p : A -> bool) (f : nat -> A) (s n : nat) :
  find p (map f (seq s n)) = None <-> forall i, (s <= i < s + n)%nat -> p (f i) = false.
Proof.
  revert s. induction n as [|n IH]; intros s; simpl.
  - split; [intros _ i Hi; lia|reflexivity].
  - destruct (p (f s)) eqn:E.
    + split; [discriminate|]. intros H. rewrite (H s) in E by lia. discriminate.
    + rewrite IH. split.
      * intros H i Hi. destruct (Nat.eq_dec i s) as [->|Hne]; [exact E|]. apply H. lia.
      * intros H i Hi. apply H. lia.
Qed.

(** Extra. [get_latest_run_time] of the legacy script returns the first of
    now, now - 1h, ..., now - 11h whose forecast-hour-1 inventory is
    found, and [None] when none of the twelve is. The returned time is
    not rounded to the hour: it keeps the minutes, seconds and
    microseconds of the clock. *)
Theorem latest_run_first_ready (lu : legacy_upstream) (model_type : string) (now t : Z) :
  (get_latest_run_time lu model_type now = Some t
   <-> exists i, (i < 12)%nat /\ t = now - Z.of_nat i * US_PER_HOUR
       /\ l_inventory_ok lu model_type (fmt_probe t) = true
       /\ forall j, (j < i)%nat ->
          l_inventory_ok lu model_type (fmt_probe (now - Z.of_nat j * US_PER_HOUR)) = false)
  /\ (get_latest_run_time lu model_type now = Some t -> t mod US_PER_HOUR = now mod US_PER_HOUR)
  /\ (get_latest_run_time lu model_type now = None
      <-> forall i, (i < 12)%nat ->
          l_inventory_ok lu model_type (fmt_probe (now - Z.of_nat i * US_PER_HOUR)) = false).
Proof.
  unfold get_latest_run_time.
  assert (Hiff : find (fun t => l_inventory_ok lu model_type (fmt_probe t))
                   (map (fun i => now - Z.of_nat i * US_PER_HOUR) (seq 0 12)) = Some t
          <-> exists i, (i < 12)%nat /\ t = now - Z.of_nat i * US_PER_HOUR
              /\ l_inventory_ok lu model_type (fmt_probe t) = true
              /\ forall j, (j < i)%nat ->
                 l_inventory_ok lu model_type (fmt_probe (now - Z.of_nat j * US_PER_HOUR))
                 = false).
  { rewrite find_map_seq. split.
    - intros [i [Hi [-> [Hp Hj]]]]. exists i.
      split; [lia|]. split; [reflexivity|]. split; [exact Hp|].
      intros j Hj'. apply Hj. lia.
    - intros [i [Hi [-> [Hp Hj]]]]. exists i.
      split; [lia|]. split; [reflexivity|]. split; [exact Hp|].
      intros j Hj'. apply Hj. lia. }
  split; [exact Hiff|]. split.
  - intros H. apply Hiff in H. destruct H as [i [_ [-> _]]].
    replace (now - Z.of_nat i * US_PER_HOUR) with (now + (- Z.of_nat i) * US_PER_HOUR)
      by ring.
    apply Z.mod_add. unfold US_PER_HOUR, US_PER_MINUTE. lia.
  - rewrite find_map_seq_none. split.
    + intros H i Hi. apply H. lia.
    + intros H i Hi. apply H. lia.
Qed.

Lemma legacy_vars_saves (lu : legacy_upstream) (model_name : string) (run_time fxx : Z)
    (vars : list string) (f : string) :
  In (LSave f) (fst (legacy_vars lu model_name run_time fxx vars))
  <-> exists v, In v (take_while (l_var_ok lu model_name run_time fxx) vars)
      /\ f = filename_of model_name v fxx.
Proof.
  induction vars as [|v t IH]; simpl.
  - split; [tauto|]. intros [v [[] _]].
  - destruct (l_var_ok lu model_name run_time fxx v) eqn:E.
    + destruct (legacy_vars lu model_name run_time fxx t) as [es ok] eqn:Et.
      simpl in *. split.
      * intros [H|[H|H]]; [discriminate| |].
        -- injection H as <-. exists v. split; [left; reflexivity|reflexivity].
        -- apply IH in H. destruct H as [v' [Hv' ->]]. exists v'. split; [right; exact Hv'|reflexivity].
      * intros [v' [[<-|Hv'] ->]]; [right; left; reflexivity|].
        right. right. apply IH. eauto.
    + simpl. split; [intros [H|[]]; discriminate|]. intros [v' [[] _]].
Qed.

Lemma in_hours (M fxx : Z) :
  In fxx (map (fun i => 1 + Z.of_nat i) (seq 0 (Z.to_nat M))) <-> 1 <= fxx <= M.
Proof.
  rewrite in_map_iff. split.
  - intros [i [<- Hi]]. apply in_seq in Hi. lia.
  - intros Hf. exists (Z.to_nat (fxx - 1)). split; [lia|]. apply in_seq. lia.
Qed.

(** Extra. The PNG files the legacy [process_model] saves are exactly
    frames_<model>_<var>/fNN.png for the run it found, each forecast hour
    from 1 to max_fxx whose Herbie handle is built, and, in the order
    temp, wind, refc, snow, the variables before the first one that
    fails in that hour: a failing variable also drops the later ones of
    the same hour. Nothing is saved when no run is found. *)
Theorem legacy_saved_files (lu : legacy_upstream) (model_name : string) (now : Z)
    (f : string) :
  In (LSave f) (process_model lu model_name now)
  <-> exists run_time fxx v,
        get_latest_run_time lu model_name now = Some run_time
        /\ 1 <= fxx <= legacy_max_fxx model_name (dt_hour run_time)
        /\ l_herbie_ok lu model_name run_time fxx = true
        /\ In v (take_while (l_var_ok lu model_name run_time fxx) LVARIABLES)
        /\ f = filename_of model_name v fxx.
Proof.
  unfold process_model.
  destruct (get_latest_run_time lu model_name now) as [rt|] eqn:Eg.
  - rewrite in_flat_map. split.
    + intros [fxx [Hfxx Hin]]. apply in_hours in Hfxx. unfold legacy_hour in Hin.
      destruct (l_herbie_ok lu model_name rt fxx) eqn:Eh; [|destruct Hin].
      apply legacy_vars_saves in Hin. destruct Hin as [v [Hv ->]].
      exists rt, fxx, v. split; [reflexivity|]. split; [exact Hfxx|].
      split; [exact Eh|]. split; [exact Hv|reflexivity].
    + intros [rt' [fxx [v [Er [Hfxx [Eh [Hv ->]]]]]]]. injection Er as <-.
      exists fxx. split; [apply in_hours; exact Hfxx|].
      unfold legacy_hour. rewrite Eh. apply legacy_vars_saves. eauto.
  - simpl. split; [tauto|]. intros [rt [fxx [v [Er _]]]]. discriminate.
Qed.

End LegacyFacts.

(* ------------------------------------------------------------------ *)
(** ** The shipped catalogue never makes [__main__] raise *)

Lemma generate_int_ok (u : upstream) (name : string) (cfg : config) (valid_dt : Z)
    (out : run_record) (tp : list Z) (keys : list jval) (zs : list Z) :
  (forall x, In x tp -> in_keys keys x = false) ->
  mapM fr_fxx (frames out) = Ok (map JInt zs) ->
  exists r, generate u name cfg valid_dt out tp keys = Ok r.
Proof.
  intros Hfresh Hm.
  destruct (gen_fold_fresh u name cfg valid_dt keys tp (frames out) _ Hfresh Hm) as [fs [Ef Hfs]].
  rewrite <- map_app in Hfs.
  destruct (sort_frames_int_ok fs _ Hfs) as [fs' Hs].
  unfold generate. rewrite Ef. cbn [bind]. rewrite Hs. cbn [bind]. eauto.
Qed.

Lemma process_model_total (u : upstream) (name : string) (cfg : config) (st : status)
    (now : Z) :
  0 < get_cycle_hrs cfg -> 0 < get_step cfg ->
  (forall rr, existing_of st name = Some rr ->
     exists zs, mapM fr_fxx (frames rr) = Ok (map JInt zs)) ->
  exists res, process_model u name cfg st now = Ok res.
Proof.
  intros Hc Hs Hst. unfold process_model. rewrite get_run_time_anchor by exact Hc.
  cbn [bind].
  match goal with |- context [discover u cfg ?b] => destruct (discover u cfg b) as [v|] end;
    [|eauto].
  destruct (py_range_ok 0 (get_max_hours cfg + 1) (get_step cfg) ltac:(lia)) as [hs Hr].
  assert (Hgen : forall p, plan u name cfg st v = Ok p ->
            (forall out tp keys, p = Todo out tp keys ->
               exists zs, mapM fr_fxx (frames out) = Ok (map JInt zs)) ->
            exists res, (p <- plan u name cfg st v ;;
                         match p with
                         | Done out => Ok (Some out)
                         | Todo out tp keys =>
                             r <- generate u name cfg v out tp keys ;; Ok (Some r)
                         end) = Ok res).
  { intros p Hp Hk. rewrite Hp. cbn [bind]. destruct p as [out|out tp keys]; [eauto|].
    destruct (plan_todo_fresh _ _ _ _ _ _ _ _ Hp) as [Hk0 [Hfresh _]].
    destruct (Hk out tp keys eq_refl) as [zs Hzs].
    destruct (generate_int_ok u name cfg v out tp keys zs Hfresh Hzs) as [r Hg].
    rewrite Hg. cbn [bind]. eauto. }
  destruct (existing_of st name) as [rr|] eqn:Hex.
  - destruct (String.eqb_spec (run_time rr) (fmt_run v)) as [Heq|Hne].
    + destruct (Hst rr eq_refl) as [zs Hzs].
      eapply Hgen; [exact (plan_case_b u name cfg st v rr _ hs Hex Heq Hzs Hr)|].
      intros out tp keys E.
      destruct (case_b_schedule (probe_available u v) (map JInt zs) hs); [discriminate|].
      injection E as <- _ _. exists zs. exact Hzs.
    + eapply Hgen; [exact (plan_case_a u name cfg st v hs ltac:(eauto) Hr)|].
      intros out tp keys E. injection E as <- _ _. exists []. reflexivity.
  - eapply Hgen; [exact (plan_case_a u name cfg st v hs ltac:(eauto) Hr)|].
    intros out tp keys E. injection E as <- _ _. exists []. reflexivity.
Qed.

Lemma main_loop_all_ok (u : upstream) (st : status) (now : Z)
    (models : list (string * config)) (acc : status) :
  (forall nc, In nc models -> exists res, process_model u (fst nc) (snd nc) st now = Ok res) ->
  exists rep, main_loop u st now (Ok acc) models = Ok rep.
Proof.
  revert acc. induction models as [|nc t IH]; intros acc H; [exists acc; reflexivity|].
  rewrite main_loop_cons. destruct (H nc (or_introl eq_refl)) as [res Hres].
  rewrite Hres. cbn [bind]. apply IH. intros nc' Hin. apply H. right. exact Hin.
Qed.

Lemma MODELS_positive (nc : string * config) :
  In nc MODELS -> 0 < get_cycle_hrs (snd nc) /\ 0 < get_step (snd nc).
Proof.
  intros Hin. simpl in Hin.
  repeat (destruct Hin as [E|Hin]; [subst nc; split; reflexivity|]). destruct Hin.
Qed.

Lemma MODELS_names_NoDup : NoDup (map fst MODELS).
Proof. simpl. repeat constructor; simpl; intuition discriminate. Qed.

(** Extra. With the shipped [MODELS] (distinct names, positive steps and
    cycles), [__main__] never raises and always rewrites status.json,
    whatever the upstream data, provided every record stored in the
    previous status.json has an int ["fxx"] in each frame (for instance
    when there is no previous file): the loop yields a report with one
    entry per model, in the order of [MODELS], and the file is truncated
    and then written with that report. *)
Theorem shipped_models_write_status (u : upstream) (st : status) (now : Z)
    (encode : status -> list string) :
  (forall name rr, existing_of st name = Some rr ->
     exists zs, mapM fr_fxx (frames rr) = Ok (map JInt zs)) ->
  exists rep, main_loop u st now (Ok []) MODELS = Ok rep
    /\ map fst rep = map fst MODELS
    /\ main_trace u st now MODELS encode
       = MakeDirs "site/images" :: OpenWrite STATUS_PATH
         :: map (WriteChunk STATUS_PATH) (encode rep).
Proof.
  intros Hst.
  destruct (main_loop_all_ok u st now MODELS []) as [rep Hrep].
  { intros nc Hin. destruct (MODELS_positive nc Hin) as [Hc Hs].
    apply process_model_total; [exact Hc|exact Hs|]. intros rr Hrr. exact (Hst _ rr Hrr). }
  exists rep. split; [exact Hrep|]. split.
  - apply (main_loop_report u st now MODELS [] rep MODELS_names_NoDup) in Hrep.
    destruct Hrep as [rest [Hr Hf]]. simpl in Hr. subst rest.
    induction Hf as [|nc e t t' [He _] _ IH]; [reflexivity|]. simpl. rewrite He, IH. reflexivity.
  - unfold main_trace.
    change (@Ok (list (string * option run_record)) []) with (@Ok status []).
    rewrite Hrep. reflexivity.
Qed.

(* ------------------------------------------------------------------ *)
(** ** Instances of the properties above *)

Lemma frame_skipped_keys_absent_witness :
  dict_get "radar"
    [("fxx", JInt 0); ("valid", JStr "12:00");
     ("wind", JStr "images/ecmwf_wind_f00.png");
     ("feelslike", JStr "images/ecmwf_feelslike_f00.png");
     ("temp", JStr "images/ecmwf_temp_f00.png");
     ("gust", JStr "images/ecmwf_gust_f00.png")] = None
  /\ dict_get "precip"
    [("fxx", JInt 0); ("valid", JStr "12:00");
     ("wind", JStr "images/ecmwf_wind_f00.png");
     ("feelslike", JStr "images/ecmwf_feelslike_f00.png");
     ("temp", JStr "images/ecmwf_temp_f00.png");
     ("gust", JStr "images/ecmwf_gust_f00.png")] = None.
Proof.
  destruct (frame_skipped_keys_absent u_all_available "ecmwf"
              (std "ifs" "oper" 6 120 12 ["ecmwf"] None (Some ["radar"; "snow"]) "ECMWF IFS")
              T_2026_10_17_12 0 _ ltac:(vm_compute; reflexivity)) as [H1 [_ H3]].
  split.
  - apply H1; [vm_compute; reflexivity|discriminate|discriminate|discriminate].
  - exact (proj1 (H3 eq_refl)).
Defined.

Lemma frame_keys_wellformed_witness :
  NoDup (map fst
    [("fxx", JInt 1); ("valid", JStr "12:00");
     ("wind", JStr "images/hrrr_wind_f01.png");
     ("feelslike", JStr "images/hrrr_feelslike_f01.png");
     ("temp", JStr "images/hrrr_temp_f01.png");
     ("gust", JStr "images/hrrr_gust_f01.png");
     ("radar", JStr "images/hrrr_radar_f01.png");
     ("precip", JStr "images/hrrr_precip_f01.png");
     ("snow", JStr "images/hrrr_snow_f01.png")]).
Proof.
  exact (proj1 (frame_keys_wellformed u_all_available "hrrr" gap_cfg T_2026_10_17_11 1 _
                  ltac:(vm_compute; reflexivity))).
Defined.

Lemma frame_wind_feelslike_together_witness :
  dict_get "wind" [("fxx", JInt 2); ("valid", JStr "13:00")] = None
  <-> dict_get "feelslike" [("fxx", JInt 2); ("valid", JStr "13:00")] = None.
Proof.
  exact (frame_wind_feelslike_together u_no_herbie "hrrr" gap_cfg T_2026_10_17_11 2 _
           ltac:(vm_compute; reflexivity)).
Defined.

Lemma frame_valid_label_daily_witness :
  dict_get "valid"
    [("fxx", JInt 25); ("valid", JStr "12:00");
     ("wind", JStr "images/hrrr_wind_f25.png");
     ("feelslike", JStr "images/hrrr_feelslike_f25.png");
     ("temp", JStr "images/hrrr_temp_f25.png");
     ("gust", JStr "images/hrrr_gust_f25.png");
     ("radar", JStr "images/hrrr_radar_f25.png");
     ("precip", JStr "images/hrrr_precip_f25.png");
     ("snow", JStr "images/hrrr_snow_f25.png")]
  = dict_get "valid"
    [("fxx", JInt 1); ("valid", JStr "12:00");
     ("wind", JStr "images/hrrr_wind_f01.png");
     ("feelslike", JStr "images/hrrr_feelslike_f01.png");
     ("temp", JStr "images/hrrr_temp_f01.png");
     ("gust", JStr "images/hrrr_gust_f01.png");
     ("radar", JStr "images/hrrr_radar_f01.png");
     ("precip", JStr "images/hrrr_precip_f01.png");
     ("snow", JStr "images/hrrr_snow_f01.png")].
Proof.
  exact (frame_valid_label_daily u_all_available "hrrr" gap_cfg T_2026_10_17_11 1 1 _ _
           ltac:(vm_compute; reflexivity) ltac:(vm_compute; reflexivity)).
Defined.

Lemma plot_path_by_hour_witness :
  "images/hrrr_temp_f07.png" <> "images/hrrr_temp_f107.png".
Proof.
  intros E.
  apply (plot_path_by_hour u_all_available u_all_available "hrrr" "temp"
           T_2026_10_17_11 T_2026_10_17_12 7 107 _ _ ltac:(lia) ltac:(lia)
           ltac:(vm_compute; reflexivity) ltac:(vm_compute; reflexivity)) in E.
  lia.
Defined.

Lemma new_run_frames_exact_witness :
  exists r zs, process_model u_all_available "hrrr" gap_cfg [] T_2026_10_17_12 = Ok (Some r)
    /\ run_time r = fmt_run T_2026_10_17_11 /\ display_name r = c_display_name gap_cfg
    /\ mapM fr_fxx (frames r) = Ok (map JInt zs)
    /\ Sorted Z.lt zs
    /\ forall x, In x zs <-> 0 <= x <= get_max_hours gap_cfg /\ (get_step gap_cfg | x).
Proof.
  exact (new_run_frames_exact u_all_available "hrrr" gap_cfg [] T_2026_10_17_12
           T_2026_10_17_11 T_2026_10_17_11 (or_introl eq_refl)
           ltac:(vm_compute; reflexivity) ltac:(vm_compute; reflexivity)
           ltac:(vm_compute; reflexivity)).
Defined.

Lemma same_run_missing_fxx_raises_witness :
  process_model u_all_available "hrrr" gap_cfg
    [("hrrr", Some (mk_rr "2026-10-17 11z" "HRRR" [[("valid", JStr "11:00")]]))]
    T_2026_10_17_12 = Err KeyError.
Proof.
  apply (same_run_missing_fxx_raises u_all_available "hrrr" gap_cfg _ T_2026_10_17_12
           T_2026_10_17_11 T_2026_10_17_11
           (mk_rr "2026-10-17 11z" "HRRR" [[("valid", JStr "11:00")]])).
  - vm_compute. reflexivity.
  - vm_compute. reflexivity.
  - exists [("valid", JStr "11:00")]. split; [left; reflexivity|vm_compute; reflexivity].
  - vm_compute. reflexivity.
  - vm_compute. reflexivity.
  - vm_compute. discriminate.
Defined.

Lemma same_run_non_int_fxx_witness :
  process_model u_all_available "hrrr" gap_cfg
    [("hrrr", Some (mk_rr "2026-10-17 11z" "HRRR" [[("fxx", JStr "0")]]))]
    T_2026_10_17_12 = Err TypeError.
Proof.
  apply (proj2 (same_run_non_int_fxx u_all_available "hrrr" gap_cfg
           [("hrrr", Some (mk_rr "2026-10-17 11z" "HRRR" [[("fxx", JStr "0")]]))] T_2026_10_17_12
           T_2026_10_17_11 T_2026_10_17_11
           (mk_rr "2026-10-17 11z" "HRRR" [[("fxx", JStr "0")]]) [JStr "0"] [0; 1; 2; 3]
           ltac:(vm_compute; reflexivity) ltac:(vm_compute; reflexivity)
           ltac:(vm_compute; reflexivity)
           ltac:(exists (JStr "0"); split; [left; reflexivity|discriminate])
           ltac:(vm_compute; reflexivity) ltac:(vm_compute; reflexivity)
           ltac:(vm_compute; reflexivity))).
  vm_compute. discriminate.
Defined.

Lemma zero_step_raises_witness :
  process_model u_all_available "hrrr" (std "hrrr" "sfc" 0 3 1 ["aws"; "nomads"] None None "HRRR")
    [] T_2026_10_17_12 = Err ValueError.
Proof.
  apply (zero_step_raises u_all_available "hrrr" _ [] T_2026_10_17_12
           T_2026_10_17_11 T_2026_10_17_11); vm_compute; reflexivity.
Defined.

Lemma negative_step_renders_nothing_witness :
  process_model u_all_available "hrrr" (std "hrrr" "sfc" (-1) 3 1 ["aws"; "nomads"] None None "HRRR")
    [] T_2026_10_17_12 = Ok (Some (mk_rr (fmt_run T_2026_10_17_11) "HRRR" [])).
Proof.
  apply (proj1 (negative_step_renders_nothing u_all_available "hrrr"
           (std "hrrr" "sfc" (-1) 3 1 ["aws"; "nomads"] None None "HRRR") [] T_2026_10_17_12
           T_2026_10_17_11 T_2026_10_17_11 ltac:(vm_compute; reflexivity)
           ltac:(vm_compute; discriminate) ltac:(vm_compute; reflexivity)
           ltac:(vm_compute; reflexivity))).
  left. reflexivity.
Defined.

Lemma main_report_in_order_witness :
  Forall2 (fun nc e => fst e = fst nc
             /\ process_model u_no_herbie (fst nc) (snd nc) [] T_2026_10_17_12 = Ok (snd e))
    [("hrrr", gap_cfg); ("hrrr_copy", gap_cfg)]
    [("hrrr", Some rr_no_herbie); ("hrrr_copy", Some rr_no_herbie)].
Proof.
  apply (main_report_in_order u_no_herbie [] T_2026_10_17_12 _ _).
  - vm_compute. repeat constructor; simpl; intuition discriminate.
  - vm_compute. reflexivity.
Defined.

Lemma model_error_keeps_status_witness :
  fs_get STATUS_PATH
    (fs_run (main_trace u_no_herbie [] T_2026_10_17_12
               [("hrrr", gap_cfg);
                ("bad", std "hrrr" "sfc" 0 3 1 ["aws"; "nomads"] None None "HRRR")]
               (fun _ => ["{}"]))
       [(STATUS_PATH, "{}")])
  = Some "{}".
Proof.
  exact (proj2 (model_error_keeps_status u_no_herbie [] T_2026_10_17_12
    [("hrrr", gap_cfg); ("bad", std "hrrr" "sfc" 0 3 1 ["aws"; "nomads"] None None "HRRR")]
    (fun _ => ["{}"])
    "bad" (std "hrrr" "sfc" 0 3 1 ["aws"; "nomads"] None None "HRRR") ValueError
    [(STATUS_PATH, "{}")]
    ltac:(simpl; tauto) ltac:(vm_compute; reflexivity))).
Defined.

Lemma truncated_status_reloads_empty_witness :
  load_existing_status (fun s => if String.eqb s "" then None else Some [])
    (fs_run (firstn 2 (main_trace u_no_herbie [] T_2026_10_17_12 [] (fun _ => ["{}"])))
       [(STATUS_PATH, "{}")]) = [].
Proof.
  exact (proj1 (truncated_status_reloads_empty u_no_herbie [] T_2026_10_17_12 []
    (fun _ => ["{}"]) (fun s => if String.eqb s "" then None else Some []) _ []
    ltac:(vm_compute; reflexivity) ltac:(vm_compute; reflexivity))).
Defined.

Lemma shipped_models_write_status_witness :
  exists rep, main_loop u_no_herbie [] T_2026_10_17_12 (Ok []) MODELS = Ok rep
    /\ map fst rep = map fst MODELS
    /\ main_trace u_no_herbie [] T_2026_10_17_12 MODELS (fun _ => ["{}"])
       = MakeDirs "site/images" :: OpenWrite STATUS_PATH
         :: map (WriteChunk STATUS_PATH) ((fun _ => ["{}"]) rep).
Proof.
  exact (shipped_models_write_status u_no_herbie [] T_2026_10_17_12 (fun _ => ["{}"])
           (fun name rr H => ltac:(discriminate H))).
Defined.
